(** * gkBoot: the client request marshaller and the response helpers

    A shallow embedding of the client side of [github.com/yomiji/gkBoot]
    (the reflection-driven request generator of package [gkBoot] and the
    embeddable response types of package [response]) together with the
    properties of its specification.

    Layout: the Go library functions the code relies on, the [response]
    package, the [gkBoot] client, the example runtime used by the closed
    examples, and then the theorems. *)

From Stdlib Require Import ZArith String Ascii List Bool Lia.
From stdpp Require Import base strings gmap list pretty.

Set Warnings "-register-all".

Open Scope string_scope.
Open Scope Z_scope.

(** ** Go library: package [strings] and [strconv]

    Go strings are byte sequences; they are embedded as [string] (a list of
    [ascii] bytes). *)

(** [strings.HasPrefix(s, prefix)]. *)
Definition strings_HasPrefix (s prefix : string) : bool := String.prefix prefix s.

(** [strings.HasSuffix(s, suffix)]. *)
Definition strings_HasSuffix (s suffix : string) : bool :=
  String.prefix (String.rev suffix) (String.rev s).

(** [strings.Contains(s, substr)]: [substr] starts at some position of [s]. *)
Fixpoint strings_Contains (s substr : string) : bool :=
  strings_HasPrefix s substr ||
  match s with
  | EmptyString => false
  | String _ s' => strings_Contains s' substr
  end.

(** The number of replacements [strings.Replace] may still make: [None] when
    there is no limit. *)
Definition spend (budget : option nat) : option nat := Nat.pred <$> budget.

(** The scan of [strings.Replace(s, old, new, n)] for a non-empty [old]:
    matches are taken left to right and do not overlap; [skip] counts the
    bytes of the current match that are still to be dropped. *)
Fixpoint replace_scan (old new : string) (budget : option nat) (skip : nat) (s : string)
  : string :=
  match s with
  | EmptyString => EmptyString
  | String c s' =>
      match skip with
      | S k => replace_scan old new budget k s'
      | O =>
          match budget with
          | Some O => s
          | _ =>
              if strings_HasPrefix s old
              then new +:+ replace_scan old new (spend budget) (String.length old - 1) s'
              else String c (replace_scan old new budget O s')
          end
      end
  end.

(** The same for an empty [old]: Go inserts [new] before every rune and at
    the end; the embedding does so before every byte, which agrees on ASCII
    text (the client only replaces a placeholder, which starts with an
    opening brace). *)
Fixpoint replace_between (new : string) (budget : option nat) (s : string) : string :=
  match budget with
  | Some O => s
  | _ =>
      match s with
      | EmptyString => new
      | String c s' => new +:+ String c (replace_between new (spend budget) s')
      end
  end.

(** [strings.Replace(s, old, new, n)]: the first [n] matches are replaced,
    all of them when [n] is negative. *)
Definition strings_Replace (s old new : string) (n : Z) : string :=
  let budget := if n <? 0 then None else Some (Z.to_nat n) in
  match old with
  | EmptyString => replace_between new budget s
  | String _ _ => replace_scan old new budget O s
  end.

(** The scan of [strings.Split(s, sep)] for a non-empty [sep]: [cur] is the
    segment read so far. *)
Fixpoint split_scan (sep : string) (skip : nat) (cur : string) (s : string)
  : list string :=
  match s with
  | EmptyString => [cur]
  | String c s' =>
      match skip with
      | S k => split_scan sep k cur s'
      | O =>
          if strings_HasPrefix s sep
          then cur :: split_scan sep (String.length sep - 1) EmptyString s'
          else split_scan sep O (cur +:+ String c EmptyString) s'
      end
  end.

(** [strings.Split(s, sep)]; with an empty [sep] Go explodes [s] into its
    runes, embedded here as its bytes. *)
Definition strings_Split (s sep : string) : list string :=
  match sep with
  | EmptyString => (fun c => String c EmptyString) <$> list_ascii_of_string s
  | String _ _ => split_scan sep O EmptyString s
  end.

(** [strings.Join(elems, sep)]. *)
Fixpoint strings_Join (elems : list string) (sep : string) : string :=
  match elems with
  | [] => EmptyString
  | [e] => e
  | e :: rest => e +:+ sep +:+ strings_Join rest sep
  end.

(** Membership of a byte in a cutset. *)
Fixpoint in_cutset (c : ascii) (cutset : string) : bool :=
  match cutset with
  | EmptyString => false
  | String d rest => Ascii.eqb c d || in_cutset c rest
  end.

(** [strings.TrimLeft(s, cutset)]. *)
Fixpoint strings_TrimLeft (s cutset : string) : string :=
  match s with
  | EmptyString => EmptyString
  | String c s' => if in_cutset c cutset then strings_TrimLeft s' cutset else s
  end.

(** [strings.TrimRight(s, cutset)]. *)
Definition strings_TrimRight (s cutset : string) : string :=
  String.rev (strings_TrimLeft (String.rev s) cutset).

(** [strconv.FormatInt(i, 10)] and [strconv.FormatUint(u, 10)]. *)
Definition strconv_FormatInt (i : Z) : string := pretty i.
Definition strconv_FormatUint (u : Z) : string := pretty u.

(** [strconv.FormatBool]. *)
Definition strconv_FormatBool (b : bool) : string :=
  if b then "true" else "false".

(** [strconv.ParseBool], keeping only the value ([false] on a parse error, as
    the caller drops the error). *)
Definition strconv_ParseBool (s : string) : bool :=
  bool_decide (s ∈ ["1"; "t"; "T"; "TRUE"; "true"; "True"]).

(** ** Go library: dynamic values and package [fmt]

    The values that travel as [interface{}] form a type [any] that is left
    open, with the strings and byte slices the client itself passes;
    [fmt.Sprintf] over them is a parameter of the development.  An
    [interface{}] is [None] for the nil interface and [Some a] otherwise. *)
Class Fmt := {
  any : Type;
  any_of_string : string -> any;
  any_of_bytes : string -> any;
  fmt_Sprintf : string -> list (option any) -> string
}.

Abbreviation iface := (option any).

(** ** Package [response] *)
Module response.

(** [BasicResponse] and [ErrorResponse]; the embedded [BasicResponse] of an
    [ErrorResponse] is the field [basic]. *)
Record BasicResponse := { code : Z }.

Record ErrorResponse := { errString : string; basic : BasicResponse }.

(** [func (b ErrorResponse) Failed() error]: the receiver itself as an error,
    or the nil error. *)
Definition Failed (b : ErrorResponse) : option ErrorResponse :=
  if bool_decide (errString b ≠ "") then Some b else None.

(** [func (b *ErrorResponse) NewError(code int, format string, vars ...interface{})]:
    both fields of the receiver are assigned. *)
Definition NewError `{Fmt} (b : ErrorResponse) (code : Z) (format : string)
    (vars : list iface) : ErrorResponse :=
  {| errString := fmt_Sprintf format vars; basic := {| code := code |} |}.

(** [func (b *BasicResponse) NewCode(code int)]. *)
Definition NewCode (b : BasicResponse) (code : Z) : BasicResponse :=
  {| response.code := code |}.

(** [func (b BasicResponse) StatusCode() int]. *)
Definition StatusCode (b : BasicResponse) : Z := code b.

(** [func (b ErrorResponse) Error() string]. *)
Definition Error (b : ErrorResponse) : string := errString b.

(** A Go map is a reference: the maps live in a store [maps], at addresses
    [loc]. *)
Definition loc := positive.

Abbreviation maps := (gmap loc (gmap string iface)).

Section Logging.
Context {fmt : Fmt}.

(** [ExpandedLogging]: [lvalues] is nil or the address of a map in the store.
    The field [lock] is not represented: the mutex serialises the methods,
    each of which is one atomic transition of the store. *)
Record ExpandedLogging := { lvalues : option loc }.

(** [make(map[string]interface{})]: a new, empty map at an unused address. *)
Definition make_map (h : maps) : loc * maps :=
  let p := fresh (dom h) in (p, <[p := ∅]> h).

(** The map behind a reference; ranging over or reading a nil map sees no
    entry. *)
Definition deref_map (h : maps) (p : option loc) : gmap string iface :=
  match p with
  | Some q => default ∅ (h !! q)
  | None => ∅
  end.

(** The loop of [Log]: [values] is consumed two at a time, a last value
    without a partner is stored with nil. *)
Fixpoint log_entries (m : gmap string iface) (values : list iface)
  : gmap string iface :=
  match values with
  | [] => m
  | [k] => <[fmt_Sprintf "%s" [k] := None]> m
  | k :: v :: rest => log_entries (<[fmt_Sprintf "%s" [k] := v]> m) rest
  end.

(** [func (l *ExpandedLogging) Log(values ...interface{})]. *)
Definition Log (l : ExpandedLogging) (values : list iface) (h : maps)
  : ExpandedLogging * maps :=
  let '(p, h1) :=
    match lvalues l with
    | Some p => (p, h)
    | None => make_map h
    end in
  ({| lvalues := Some p |}, <[p := log_entries (deref_map h1 (Some p)) values]> h1).

(** [func (l *ExpandedLogging) GetAll() map[string]interface{}]: the entries
    are copied one by one into a new map, whose address is returned. *)
Definition GetAll (l : ExpandedLogging) (h : maps) : loc * maps :=
  let '(r, h1) := make_map h in
  (r, <[r := map_fold (fun k v result => <[k := v]> result) ∅ (deref_map h (lvalues l))]> h1).

(** The map of an [ExpandedLogging] that has one is in the store. *)
Definition allocated (l : ExpandedLogging) (h : maps) : Prop :=
  forall p, lvalues l = Some p -> is_Some (h !! p).

End Logging.

End response.

(** ** Go library: package [reflect] *)

(** [reflect.Kind]. *)
Inductive Kind : Type :=
| KInvalid | KBool
| KInt | KInt8 | KInt16 | KInt32 | KInt64
| KUint | KUint8 | KUint16 | KUint32 | KUint64 | KUintptr
| KFloat32 | KFloat64 | KComplex64 | KComplex128
| KArray | KChan | KFunc | KInterface | KMap | KPointer | KSlice | KString
| KStruct | KUnsafePointer.

#[global] Instance Kind_eq_dec : EqDecision Kind.
Proof. solve_decision. Defined.

(** The kinds grouped as the accessors [Int], [Uint], [Float] and [Complex]
    of [reflect.Value] group them. *)
Inductive IntKind := Int_ | Int8_ | Int16_ | Int32_ | Int64_.
Inductive UintKind := Uint_ | Uint8_ | Uint16_ | Uint32_ | Uint64_.
Inductive FloatKind := Float32_ | Float64_.
Inductive ComplexKind := Complex64_ | Complex128_.
Inductive OtherKind := Array_ | Chan_ | Func_ | Interface_ | Map_ | Uintptr_ | UnsafePointer_.

(** Floating point numbers are kept abstract, with their [strconv]
    formatters: [strconv.FormatFloat(f, fmt, prec, bitSize)] and
    [strconv.FormatComplex(c, fmt, prec, bitSize)]. *)
Class Floats := {
  float64 : Type;
  complex128 : Type;
  strconv_FormatFloat : float64 -> ascii -> Z -> Z -> string;
  strconv_FormatComplex : complex128 -> ascii -> Z -> Z -> string
}.

(** [reflect.StructTag] as the list of its key/value pairs, in the order in
    which they are written. *)
Definition StructTag := list (string * string).

(** [func (tag StructTag) Lookup(key string) (value string, ok bool)]: the
    first pair with that key. *)
Fixpoint Tag_Lookup (tag : StructTag) (key : string) : option string :=
  match tag with
  | [] => None
  | (k, v) :: rest => if String.eqb k key then Some v else Tag_Lookup rest key
  end.

(** [reflect.StructField]: [Type_Kind] is [Type.Kind()], the kind of the
    declared type of the field. *)
Record StructField := {
  Name : string;
  Type_Kind : Kind;
  Tag : StructTag;
  Anonymous : bool
}.

(** The two flags of a [reflect.Value] the client consults. *)
Record Flags := { CanSet_flag : bool; CanInterface_flag : bool }.

(** [reflect.Value]: the value together with everything reachable from it
    through [Elem], [Index] and [Field].  [VInvalid] is the zero Value, which
    [Elem] returns on a nil pointer: [VPtr fl VInvalid] is a nil pointer.  An
    integer is the number that [Int] or [Uint] returns for it; a Value is a
    finite tree, so a pointer that leads back to itself has no counterpart. *)
Inductive Value `{Floats} : Type :=
| VInvalid
| VBool (fl : Flags) (b : bool)
| VInt (fl : Flags) (k : IntKind) (i : Z)
| VUint (fl : Flags) (k : UintKind) (u : Z)
| VFloat (fl : Flags) (k : FloatKind) (f : float64)
| VComplex (fl : Flags) (k : ComplexKind) (c : complex128)
| VString (fl : Flags) (s : string)
| VSlice (fl : Flags) (elems : list Value)
| VStruct (fl : Flags) (fields : list (StructField * Value))
| VPtr (fl : Flags) (elem : Value)
| VOther (fl : Flags) (k : OtherKind).

Section Reflect.
Context {floats : Floats}.

Definition IntKind_Kind (k : IntKind) : Kind :=
  match k with
  | Int_ => KInt | Int8_ => KInt8 | Int16_ => KInt16 | Int32_ => KInt32 | Int64_ => KInt64
  end.

Definition UintKind_Kind (k : UintKind) : Kind :=
  match k with
  | Uint_ => KUint | Uint8_ => KUint8 | Uint16_ => KUint16 | Uint32_ => KUint32
  | Uint64_ => KUint64
  end.

Definition OtherKind_Kind (k : OtherKind) : Kind :=
  match k with
  | Array_ => KArray | Chan_ => KChan | Func_ => KFunc | Interface_ => KInterface
  | Map_ => KMap | Uintptr_ => KUintptr | UnsafePointer_ => KUnsafePointer
  end.

(** [func (v Value) Kind() Kind]. *)
Definition Value_Kind (v : Value) : Kind :=
  match v with
  | VInvalid => KInvalid
  | VBool _ _ => KBool
  | VInt _ k _ => IntKind_Kind k
  | VUint _ k _ => UintKind_Kind k
  | VFloat _ Float32_ _ => KFloat32
  | VFloat _ Float64_ _ => KFloat64
  | VComplex _ Complex64_ _ => KComplex64
  | VComplex _ Complex128_ _ => KComplex128
  | VString _ _ => KString
  | VSlice _ _ => KSlice
  | VStruct _ _ => KStruct
  | VPtr _ _ => KPointer
  | VOther _ k => OtherKind_Kind k
  end.

(** [func (v Value) IsValid() bool]. *)
Definition Value_IsValid (v : Value) : bool :=
  match v with VInvalid => false | _ => true end.

(** The flags of a valid Value; the zero Value has none. *)
Definition Value_flags (v : Value) : Flags :=
  match v with
  | VInvalid => {| CanSet_flag := false; CanInterface_flag := false |}
  | VBool fl _ | VInt fl _ _ | VUint fl _ _ | VFloat fl _ _ | VComplex fl _ _
  | VString fl _ | VSlice fl _ | VStruct fl _ | VPtr fl _ | VOther fl _ => fl
  end.

(** [func (v Value) CanSet() bool] and [func (v Value) CanInterface() bool]
    (the latter only called on valid Values). *)
Definition Value_CanSet (v : Value) : bool := CanSet_flag (Value_flags v).
Definition Value_CanInterface (v : Value) : bool := CanInterface_flag (Value_flags v).

(** [func (v Value) Elem() Value] on a pointer. *)
Definition Value_Elem (v : Value) : Value :=
  match v with
  | VPtr _ elem => elem
  | _ => VInvalid
  end.

End Reflect.

(** ** Go library: packages [net/url], [net/http] and [io] *)

(** [url.URL], with the fields the client reads or writes. *)
Record URL := {
  Scheme : string;
  Host : string;
  Path : string;
  RawPath : string;
  RawQuery : string
}.

(** [http.Header]. *)
Abbreviation Header := (gmap string (list string)).

(** [http.Request]: a [*http.Request] is [None] when nil and otherwise the
    current contents of the request it points to. *)
Record Request := {
  Method : string;
  Request_URL : URL;
  Request_Header : Header;
  Body : option string
}.

(** [http.Cookie], with the two fields the client sets. *)
Record Cookie := { Cookie_Name : string; Cookie_Value : string }.

(** [*tls.Config]; [http.DefaultClient.Transport] is [None] until a TLS
    configuration has been given, and then the HTTP/2 transport for it. *)
Inductive tls_Config := TLSConfig (id : positive).

(** A computation that may panic instead of returning. *)
Inductive Outcome (A : Type) : Type :=
| Returns (a : A)
| Panics.
Arguments Returns {A} a.
Arguments Panics {A}.

(** ** Package [gkBoot]: errors *)

(** The errors of the client, one constructor per [fmt.Errorf] of the source;
    [External] is an error made by a library or by the code of the caller, and
    [ErrorCarrier] the anonymous struct embedding [response.ErrorResponse]
    that [DoGeneratedRequest] returns as an error. *)
Inductive error : Type :=
| External (msg : string)
| NilClient
| ClientValidation (validationErr : error)
| ClientGenerationURL (err : error) (joinedStr : string)
| ClientGenerationRequester (joinedStr : string) (err : error)
| NonStructClient
| ClientGenerationMarshal (err : error) (srName : string)
| ClientFieldAssignment (srName : string) (err : error)
| RequestObjectNotStruct (objName : string)
| RequestObjectNotStructForPath (rawPath : string)
| UnknownClientOperation (requestTag : string)
| RequiredCookieNotSet (fieldName : string)
| RequiredHeaderNotSet (fieldName : string)
| RequiredPathNotSet (fieldName : string)
| PathVariableNotFound (fieldName path replaceableString : string)
| BodyMarshal (err : error) (fieldName : string)
| BodyUnavailable (fieldName : string)
| CaptureFailed (method url : string) (err : error)
| ParseBodyFailed (method url : string) (err : error)
| DecodeFailed (method url : string) (err : error)
| ErrorCarrier (e : response.ErrorResponse).

(** [MalformedRequestErr]. *)
Definition MalformedRequestErr : error := External "malformed request".

(** [resp.Body]: what [io.ReadAll] returns on it. *)
Record ReadCloser := { content : string; read_error : option error }.

(** [http.Response]. *)
Record Response := { StatusCode : Z; Response_Body : ReadCloser }.

(** Everything else the client calls and the repository's sources above do
    not define: the Go library ([net/url], [net/http], [encoding/json]), the
    network, and two functions that live in other files of the repository
    ([helpers.GetFriendlyRequestName] and [fromSwaggestTag], the
    structured-schema tag source). *)
Class Runtime `{Floats} := {
  url_QueryEscape : string -> string;
  url_Parse : string -> URL + error;
  URL_String : URL -> string;
  url_Values : Type;
  URL_Query : URL -> url_Values;
  Values_Add : url_Values -> string -> string -> url_Values;
  Values_Encode : url_Values -> string;
  json_Marshal : Value -> string * option error;
  http_NewRequest : string -> string -> option string -> option Request * option error;
  Request_AddCookie : Request -> Cookie -> Request;
  Header_Add : Header -> string -> string -> Header;
  Header_Set : Header -> string -> string -> Header;
  http_StatusText : Z -> string;
  client_Do : option (option tls_Config) -> Request -> Response + error;
  GetFriendlyRequestName : Value -> string;
  fromSwaggestTag : StructField -> string * string * string * bool
}.

(** The double quote. *)
Definition dq : string := String "034"%char EmptyString.

Section Client.
Context {floats : Floats} {runtime : Runtime} {fmt : Fmt}.

(** The text of an error, as its [Error()] method gives it. *)
Fixpoint Error_text (e : error) : string :=
  match e with
  | External msg => msg
  | NilClient => "nil client not supported"
  | ClientValidation err => "client validation err: " +:+ Error_text err
  | ClientGenerationURL err joinedStr =>
      "client generation failed, " +:+ Error_text err +:+ ", attempted url: " +:+ joinedStr
  | ClientGenerationRequester joinedStr err =>
      "client generation failed [" +:+ joinedStr +:+ "] " +:+ Error_text err +:+ " "
      +:+ "malformed request"
  | NonStructClient => "non-struct client not supported"
  | ClientGenerationMarshal err srName =>
      "client generation failed, " +:+ Error_text err +:+ ", of client " +:+ srName
  | ClientFieldAssignment srName err =>
      "client field assignment failed, for client " +:+ srName +:+ ": " +:+ Error_text err
  | RequestObjectNotStruct objName =>
      "request object '" +:+ objName +:+ "' must be a Struct type"
  | RequestObjectNotStructForPath rawPath =>
      "request object must be a Struct type for path " +:+ rawPath
  | UnknownClientOperation requestTag => "unknown 'client' operation: " +:+ requestTag
  | RequiredCookieNotSet fieldName => "required cookie not found or not set: " +:+ fieldName
  | RequiredHeaderNotSet fieldName => "required header not found or not set: " +:+ fieldName
  | RequiredPathNotSet fieldName =>
      "required path variable not found or not set: " +:+ fieldName
  | PathVariableNotFound fieldName path replaceableString =>
      "could not find path variable: " +:+ fieldName +:+ ", in path [" +:+ path
      +:+ "], wanted syntax [" +:+ replaceableString +:+ "]"
  | BodyMarshal err fieldName =>
      "client generation failed, " +:+ Error_text err +:+ ", of client field " +:+ fieldName
  | BodyUnavailable fieldName =>
      "client generation failed, unable to get body of client field " +:+ fieldName
  | CaptureFailed method url err =>
      "unable to capture response body for " +:+ method +:+ " " +:+ url +:+ " due to "
      +:+ Error_text err
  | ParseBodyFailed method url err =>
      "unable to parse response body for " +:+ method +:+ " " +:+ url +:+ " due to "
      +:+ Error_text err
  | DecodeFailed method url err =>
      "unable to decode response body for " +:+ method +:+ " " +:+ url +:+ " due to "
      +:+ Error_text err
  | ErrorCarrier e => response.Error e
  end.

(** *** The Value Converter *)

(** The loop of [convertSliceToStringValue], over the elements of the slice
    and for a given conversion of one element: an element without a string is
    skipped, and with [urlEncode] the string of an element is escaped before it
    is appended. *)
Fixpoint accumulate (convert : Value -> option string) (urlEncode : bool)
    (elems : list Value) : list string :=
  match elems with
  | [] => []
  | e :: rest =>
      match convert e with
      | None => accumulate convert urlEncode rest
      | Some currentStr =>
          (if urlEncode then url_QueryEscape currentStr else currentStr)
          :: accumulate convert urlEncode rest
      end
  end.

(** The string put in place of a struct whose JSON encoding failed. *)
Definition jsonParseError : string :=
  "{ " +:+ dq +:+ "error" +:+ dq +:+ ": " +:+ dq +:+ "JSON parse error" +:+ dq +:+ " }".

(** [func convertBaseValueToString(src reflect.Value, urlEncode bool) *string];
    the result is [None] for the nil pointer.  In the struct case [result] is
    first set from [err] and then assigned [string(body)], as in the source. *)
Fixpoint convertBaseValueToString (src : Value) (urlEncode : bool) {struct src}
  : option string :=
  let finish (result : string) : option string :=
    Some (if urlEncode then url_QueryEscape result else result) in
  match src with
  | VInvalid => None
  | VPtr _ elem => convertBaseValueToString elem urlEncode
  | VString _ s => finish s
  | VInt _ _ i => finish (strconv_FormatInt i)
  | VBool _ b => finish (strconv_FormatBool b)
  | VSlice _ elems =>
      Some (strings_Join
              (accumulate (fun e => convertBaseValueToString e urlEncode) urlEncode elems)
              ",")
  | VFloat _ Float64_ f => finish (strconv_FormatFloat f "f"%char (-1) 64)
  | VFloat _ Float32_ f => finish (strconv_FormatFloat f "f"%char (-1) 32)
  | VUint _ _ u => finish (strconv_FormatUint u)
  | VComplex _ Complex64_ c => finish (strconv_FormatComplex c "f"%char (-1) 64)
  | VComplex _ Complex128_ c => finish (strconv_FormatComplex c "f"%char (-1) 128)
  | VStruct fl _ =>
      if CanInterface_flag fl then
        let '(body, err) := json_Marshal src in
        let result := match err with
                      | Some _ => jsonParseError
                      | None => EmptyString
                      end in
        let result := body in
        finish result
      else finish "null"
  | VOther _ _ => finish "?"
  end.

(** [func convertSliceToStringValue(value reflect.Value, urlEncode bool) string],
    given the elements [value.Index(0)], ..., [value.Index(value.Len()-1)]. *)
Definition convertSliceToStringValue (elems : list Value) (urlEncode : bool) : string :=
  strings_Join
    (accumulate (fun e => convertBaseValueToString e urlEncode) urlEncode elems) ",".

(** The element is a slice, or a chain of pointers that ends in one. *)
Fixpoint slice_behind_pointers (e : Value) : bool :=
  match e with
  | VSlice _ _ => true
  | VPtr _ elem => slice_behind_pointers elem
  | _ => false
  end.

(** The value is the zero Value, or a chain of pointers that ends in nil. *)
Fixpoint nil_behind_pointers (v : Value) : bool :=
  match v with
  | VInvalid => true
  | VPtr _ elem => nil_behind_pointers elem
  | _ => false
  end.

(** *** The Tag Resolver *)

(** [func readClientTag(field reflect.StructField)
    (requestPart, alias, jsonAlias, encode string)].  The results of
    [fromSwaggestTag] are assigned to the named results whether or not it
    reports success. *)
Definition readClientTag (field : StructField) : string * string * string * string :=
  let encode := default EmptyString (Tag_Lookup (Tag field) "urlEncode") in
  let '(requestPart, alias, jsonAlias, ok) := fromSwaggestTag field in
  if ok then (requestPart, alias, jsonAlias, encode)
  else
    let requestPart := default requestPart (Tag_Lookup (Tag field) "request") in
    let alias := default alias (Tag_Lookup (Tag field) "alias") in
    let jsonAlias :=
      match Tag_Lookup (Tag field) "json" with
      | Some tag =>
          if String.eqb tag "-," then "-"
          else
            let jsonAlias := default EmptyString (strings_Split tag "," !! 0%nat) in
            if String.eqb jsonAlias "-" then EmptyString else jsonAlias
      | None => jsonAlias
      end in
    (requestPart, alias, jsonAlias, encode).

(** The wire name of a field, as [assignRequest] computes [fieldName] in both
    of its writing branches: the identifier, overridden by a non-empty
    serialization alias, overridden by a non-empty alias. *)
Definition wireName (fieldDesc : StructField) (alias jsonAlias : string) : string :=
  let fieldName := Name fieldDesc in
  let fieldName := if negb (String.eqb jsonAlias "") then jsonAlias else fieldName in
  let fieldName := if negb (String.eqb alias "") then alias else fieldName in
  fieldName.

(** *** The writers *)

(** [convertedValue == nil || *convertedValue == ""]. *)
Definition nil_or_empty (convertedValue : option string) : bool :=
  match convertedValue with
  | None => true
  | Some s => String.eqb s ""
  end.

(** What a function handed a [*http.Request] leaves behind: the request
    behind the pointer and the returned error, unless it panics. *)
Definition Written : Type := Outcome (option Request * option error).

(** A step that dereferences [r]: a nil [r] panics. *)
Definition deref_request (r : option Request) (k : Request -> Written) : Written :=
  match r with
  | None => Panics
  | Some req => k req
  end.

Definition typicalClientRequestWriter : Type :=
  option Request -> string -> Value -> bool -> bool -> Written.

Definition writeRequestCookie : typicalClientRequestWriter :=
  fun r fieldName fieldValue isRequired urlEncode =>
  let convertedValue := convertBaseValueToString fieldValue urlEncode in
  if isRequired && nil_or_empty convertedValue
  then Returns (r, Some (RequiredCookieNotSet fieldName))
  else
    let cookie := {| Cookie_Name := fieldName;
                     Cookie_Value := match convertedValue with
                                     | Some s => s
                                     | None => EmptyString
                                     end |} in
    deref_request r (fun req => Returns (Some (Request_AddCookie req cookie), None)).

Definition writeRequestHeader : typicalClientRequestWriter :=
  fun r fieldName fieldValue isRequired urlEncode =>
  let convertedValue := convertBaseValueToString fieldValue urlEncode in
  if isRequired && nil_or_empty convertedValue
  then Returns (r, Some (RequiredHeaderNotSet fieldName))
  else
    deref_request r (fun req =>
      let header :=
        match convertedValue with
        | Some s => Header_Add (Request_Header req) fieldName s
        | None => Header_Add (Request_Header req) fieldName EmptyString
        end in
      Returns (Some {| Method := Method req; Request_URL := Request_URL req;
                       Request_Header := header; Body := Body req |}, None)).

(** The query writer converts without escaping whatever [urlEncode] is, and
    reports a missing required value with the text of the header writer. *)
Definition writeRequestQueryParam : typicalClientRequestWriter :=
  fun r fieldName fieldValue isRequired urlEncode =>
  let convertedValue := convertBaseValueToString fieldValue false in
  if isRequired && nil_or_empty convertedValue
  then Returns (r, Some (RequiredHeaderNotSet fieldName))
  else
    deref_request r (fun req =>
      let u := Request_URL req in
      let reqQuery :=
        match convertedValue with
        | Some s => Values_Add (URL_Query u) fieldName s
        | None => Values_Add (URL_Query u) fieldName EmptyString
        end in
      let u := {| Scheme := Scheme u; Host := Host u; Path := Path u; RawPath := RawPath u;
                  RawQuery := Values_Encode reqQuery |} in
      Returns (Some {| Method := Method req; Request_URL := u;
                       Request_Header := Request_Header req; Body := Body req |}, None)).

(** [func writeRequestBody(r *http.Request, fieldName string, fieldValue reflect.Value) error]:
    the content type is set before anything can fail. *)
Definition writeRequestBody (r : option Request) (fieldName : string) (fieldValue : Value)
  : Written :=
  deref_request r (fun req =>
    let req := {| Method := Method req; Request_URL := Request_URL req;
                  Request_Header :=
                    Header_Set (Request_Header req) "Content-Type" "application/json";
                  Body := Body req |} in
    if Value_CanInterface fieldValue then
      let '(jsBody, err) := json_Marshal fieldValue in
      match err with
      | Some err => Returns (Some req, Some (BodyMarshal err fieldName))
      | None =>
          Returns (Some {| Method := Method req; Request_URL := Request_URL req;
                           Request_Header := Request_Header req; Body := Some jsBody |},
                   None)
      end
    else Returns (Some req, Some (BodyUnavailable fieldName))).

Definition writeRequestPath : typicalClientRequestWriter :=
  fun r fieldName fieldValue isRequired urlEncode =>
  let convertedValue := convertBaseValueToString fieldValue urlEncode in
  if isRequired && nil_or_empty convertedValue
  then Returns (r, Some (RequiredPathNotSet fieldName))
  else
    deref_request r (fun req =>
      let u := Request_URL req in
      let path := Path u in
      let replaceableString := "{" +:+ fieldName +:+ "}" in
      if negb (strings_Contains path replaceableString)
      then Returns (r, Some (PathVariableNotFound fieldName path replaceableString))
      else
        let path :=
          match convertedValue with
          | Some s => strings_Replace path replaceableString s (-1)
          | None => strings_Replace (Path u) replaceableString EmptyString (-1)
          end in
        let u := {| Scheme := Scheme u; Host := Host u; Path := path; RawPath := RawPath u;
                    RawQuery := RawQuery u |} in
        Returns (Some {| Method := Method req; Request_URL := u;
                         Request_Header := Request_Header req; Body := Body req |}, None)).

(** The error with which the writer selected by a required placement tag
    reports a value that is not set. *)
Definition requiredNotSet (requestTag fieldName : string) : option error :=
  if String.eqb requestTag "cookie!" then Some (RequiredCookieNotSet fieldName)
  else if String.eqb requestTag "header!" then Some (RequiredHeaderNotSet fieldName)
  else if String.eqb requestTag "query!" then Some (RequiredHeaderNotSet fieldName)
  else if String.eqb requestTag "path!" then Some (RequiredPathNotSet fieldName)
  else None.

(** [func returnClientOperationByTagValue(tagName string) typicalClientRequestWriter];
    [None] is the nil function. *)
Definition returnClientOperationByTagValue (tagName : string)
  : option typicalClientRequestWriter :=
  if bool_decide (tagName ∈ ["cookie"; "cookie!"]) then Some writeRequestCookie
  else if bool_decide (tagName ∈ ["header"; "header!"]) then Some writeRequestHeader
  else if bool_decide (tagName ∈ ["query"; "query!"]) then Some writeRequestQueryParam
  else if bool_decide (tagName ∈ ["path"; "path!"]) then Some writeRequestPath
  else None.

(** *** The Field Assigner *)

(** The pointer loop of [assignRequest]: [fieldVal] is replaced by what it
    points to as long as it is a pointer that is not nil. *)
Fixpoint traversePointers (fieldVal : Value) : Value :=
  match fieldVal with
  | VPtr _ VInvalid => fieldVal
  | VPtr _ elem => traversePointers elem
  | _ => fieldVal
  end.

(** [k (traversePointers fieldVal)], written so that [k] is visibly applied
    to a part of [fieldVal]. *)
Definition onTraversed {A : Type} (k : Value -> A) : Value -> A :=
  fix go (fieldVal : Value) : A :=
    match fieldVal with
    | VPtr _ VInvalid => k fieldVal
    | VPtr _ elem => go elem
    | _ => k fieldVal
    end.

(** [fieldVal] once the pointer loop, entered for a field of pointer type,
    is over. *)
Definition fieldValue (fieldDesc : StructField) (field_i : Value) : Value :=
  if bool_decide (Type_Kind fieldDesc = KPointer) then traversePointers field_i else field_i.

(** What the body of the loop of [assignRequest] does with one field: it
    returns the result of the recursive call on the field ([Recurse]), it
    returns on its own ([Return_], with an error or by a panic), or it goes
    on to the next field ([Next]). *)
Inductive FieldStep : Type :=
| Recurse
| Next (r : option Request)
| Return_ (result : Written).

(** [err = ...; if err != nil { return err }]. *)
Definition next_unless_error (written : Written) : FieldStep :=
  match written with
  | Returns (r, None) => Next r
  | failed => Return_ failed
  end.

(** The body of the loop of [assignRequest] for the field [fieldDesc] whose
    value is [field_i]. *)
Definition assignField (r : option Request) (fieldDesc : StructField) (field_i : Value)
  : FieldStep :=
  let fieldVal := fieldValue fieldDesc field_i in
  let '(requestTag, alias, jsonAlias, encode) := readClientTag fieldDesc in
  let urlEncode := strconv_ParseBool encode in
  if String.eqb requestTag ""
     && (bool_decide (Type_Kind fieldDesc = KStruct)
         || (Anonymous fieldDesc && Value_CanSet fieldVal))
  then Recurse
  else if String.eqb requestTag "form" then
    next_unless_error (writeRequestBody r (wireName fieldDesc alias jsonAlias) fieldVal)
  else if negb (String.eqb requestTag "") then
    match returnClientOperationByTagValue requestTag with
    | None => Return_ (Returns (r, Some (UnknownClientOperation requestTag)))
    | Some operation =>
        next_unless_error
          (operation r (wireName fieldDesc alias jsonAlias) fieldVal
             (strings_HasSuffix requestTag "!") urlEncode)
    end
  else Next r.

(** The loop of [assignRequest] over the fields [(Type.Field(i), Field(i))]
    of the struct, from the first on; [recurse] is the recursive call
    [assignRequest(r, fieldVal)]. *)
Fixpoint assignFields (recurse : option Request -> StructField -> Value -> Written)
    (r : option Request) (fields : list (StructField * Value)) : Written :=
  match fields with
  | [] => Returns (r, None)
  | (fieldDesc, field_i) :: rest =>
      match assignField r fieldDesc field_i with
      | Recurse => recurse r fieldDesc field_i
      | Next r' => assignFields recurse r' rest
      | Return_ result => result
      end
  end.

(** [func assignRequest(r *http.Request, value reflect.Value) error].
    [value.Type()] panics on the zero Value. *)
Fixpoint assignRequest (r : option Request) (value : Value) {struct value} : Written :=
  match value with
  | VInvalid => Panics
  | VStruct _ fields =>
      assignFields
        (fun r fieldDesc field_i =>
           if bool_decide (Type_Kind fieldDesc = KPointer)
           then onTraversed (assignRequest r) field_i
           else assignRequest r field_i)
        r fields
  | baseVal =>
      if Value_CanInterface baseVal
      then Returns (r, Some (RequestObjectNotStruct (GetFriendlyRequestName baseVal)))
      else deref_request r (fun req =>
             Returns (r, Some (RequestObjectNotStructForPath (RawPath (Request_URL req)))))
  end.

(** The walk of [assignRequest] over a struct with the fields [fields],
    started on the request [r], comes to the field [fieldDesc] with the value
    [field_i] while the request is [r']: the field is the first one; or the
    first field lets the loop go on and the walk comes to the field from the
    next one; or the loop recurses into the first field, a struct, and the
    walk over that struct comes to the field. *)
Inductive reaches (r : option Request)
  : list (StructField * Value) -> option Request -> StructField -> Value -> Prop :=
| reaches_here fieldDesc field_i rest :
    reaches r ((fieldDesc, field_i) :: rest) r fieldDesc field_i
| reaches_next first first_i rest r1 r' fieldDesc field_i :
    assignField r first first_i = Next r1 ->
    reaches r1 rest r' fieldDesc field_i ->
    reaches r ((first, first_i) :: rest) r' fieldDesc field_i
| reaches_inside first first_i rest fl fields r' fieldDesc field_i :
    assignField r first first_i = Recurse ->
    fieldValue first first_i = VStruct fl fields ->
    reaches r fields r' fieldDesc field_i ->
    reaches r ((first, first_i) :: rest) r' fieldDesc field_i.

(** *** The Request Generator *)

(** [request.HttpRouteInfo], with the fields the client reads. *)
Record HttpRouteInfo := { Info_Name : string; Info_Method : string; Info_Path : string }.

(** A non-nil [request.HttpRequest]: what [Info()] returns, the optional
    interfaces its dynamic type implements with what their methods return
    ([Validate() error] and [Request(ctx)], a request and an error), and
    [reflect.ValueOf] of it. *)
Record HttpRequest := {
  Info : HttpRouteInfo;
  as_Validator : option (option error);
  as_SkipClientValidation : bool;
  as_Requester : option (option Request * option error);
  as_jsonBody : bool;
  reflect_ValueOf : Value
}.

(** The validation step of [GenerateClientRequest]: the error of [Validate],
    for a request that has the method and does not skip the validation. *)
Definition clientValidation (sr : HttpRequest) : option error :=
  match as_Validator sr with
  | Some validationErr => if as_SkipClientValidation sr then None else validationErr
  | None => None
  end.

(** [joinedStr]: the base URL and the path, with one slash between them. *)
Definition joinedStr (baseUrl : string) (sr : HttpRequest) : string :=
  let srPath := Info_Path (Info sr) in
  let baseUrl := strings_TrimRight baseUrl "/" in
  let srPath := strings_TrimLeft srPath "/" in
  baseUrl +:+ "/" +:+ srPath.

(** [clientValue]: [reflect.ValueOf(serviceRequest)], less one layer of
    pointer. *)
Definition clientValue (sr : HttpRequest) : Value :=
  let clientValue := reflect_ValueOf sr in
  if bool_decide (Value_Kind clientValue = KPointer)
  then Value_Elem clientValue else clientValue.

(** The body with which the request is made: the JSON of the whole request
    for a [jsonBody], unless the encoding fails, and none otherwise. *)
Definition requestBody (sr : HttpRequest) : option string + error :=
  if as_jsonBody sr then
    let '(body, err) := json_Marshal (reflect_ValueOf sr) in
    match err with
    | Some err => inr err
    | None => inl (Some body)
    end
  else inl None.

(** [func GenerateClientRequest(baseUrl string, serviceRequest request.HttpRequest)],
    returning a request and an error; [serviceRequest] is [None] for the nil
    interface.  The error of [http.NewRequest] is overwritten unread. *)
Definition GenerateClientRequest (baseUrl : string) (serviceRequest : option HttpRequest)
  : Written :=
  match serviceRequest with
  | None => Returns (None, Some NilClient)
  | Some sr =>
      match clientValidation sr with
      | Some validationErr => Returns (None, Some (ClientValidation validationErr))
      | None =>
          let joinedStr := joinedStr baseUrl sr in
          match url_Parse joinedStr with
          | inr err => Returns (None, Some (ClientGenerationURL err joinedStr))
          | inl u =>
              let srMethod := Info_Method (Info sr) in
              match as_Requester sr with
              | Some (_, Some err) =>
                  Returns (None, Some (ClientGenerationRequester joinedStr err))
              | Some (r, None) =>
                  deref_request r (fun req =>
                    Returns (Some {| Method := srMethod; Request_URL := u;
                                     Request_Header := Request_Header req;
                                     Body := Body req |}, None))
              | None =>
                  let clientValue := clientValue sr in
                  if negb (bool_decide (Value_Kind clientValue = KStruct))
                  then Returns (None, Some NonStructClient)
                  else
                    let srName := Info_Name (Info sr) in
                    match requestBody sr with
                    | inr err => Returns (None, Some (ClientGenerationMarshal err srName))
                    | inl body =>
                        let requestResult :=
                          (http_NewRequest srMethod (URL_String u) body).1 in
                        match assignRequest requestResult clientValue with
                        | Returns (requestResult, Some err) =>
                            Returns (requestResult,
                                     Some (ClientFieldAssignment srName err))
                        | Returns (requestResult, None) => Returns (requestResult, None)
                        | Panics => Panics
                        end
                    end
              end
          end
      end
  end.

(** *** The Request Executor *)

(** A method with a pointer receiver of type [*T]: what it does on the nil
    pointer, and what it does to the value behind any other. *)
Record PtrMethod (T A R : Type) := {
  on_nil : A -> Outcome R;
  on_value : T -> A -> Outcome (T * R)
}.
Arguments on_nil {T A R} _ _.
Arguments on_value {T A R} _ _ _.

(** The call [p.m(a)] for [p] of type [*T]. *)
Definition call {T A R : Type} (m : PtrMethod T A R) (p : option T) (a : A)
  : Outcome (option T * R) :=
  match p with
  | None =>
      match on_nil m a with
      | Returns res => Returns (None, res)
      | Panics => Panics
      end
  | Some v =>
      match on_value m v a with
      | Returns (v', res) => Returns (Some v', res)
      | Panics => Panics
      end
  end.

(** What [DoGeneratedRequest] asks of [*ResponseType]: the optional
    interfaces it implements ([response.CodedResponse],
    [response.CaptureReader], [response.ErredResponse], [json.Unmarshaler]),
    each with its method, and [json.Unmarshal] into a value of the type. *)
Record ResponseType (T : Type) := {
  as_CodedResponse : option (PtrMethod T Z unit);
  as_CaptureReader : option (PtrMethod T ReadCloser (option error));
  as_ErredResponse : option (PtrMethod T (Z * string * list iface) unit);
  as_Unmarshaler : option (PtrMethod T string (option error));
  json_Unmarshal : string -> T -> T * option error
}.
Arguments as_CodedResponse {T} _.
Arguments as_CaptureReader {T} _.
Arguments as_ErredResponse {T} _.
Arguments as_Unmarshaler {T} _.
Arguments json_Unmarshal {T} _ _ _.

(** The part of the process the executor shares with its other calls: the
    transport of [http.DefaultClient], and the requests handed to the
    transport so far, in order. *)
Record World := {
  DefaultClient_Transport : option (option tls_Config);
  sent : list Request
}.

(** The zero [ErrorResponse]. *)
Definition zero_ErrorResponse : response.ErrorResponse :=
  {| response.errString := EmptyString; response.basic := {| response.code := 0 |} |}.

(** What the executor leaves behind: the world, the value behind
    [responseObj] and the returned error, unless it panics. *)
Definition Executed (T : Type) : Type := Outcome (World * option T * option error).

(** [func DoGeneratedRequest[ResponseType any](r *http.Request,
    responseObj *ResponseType, tlsConfig ...*tls.Config) error]. *)
Definition DoGeneratedRequest {T : Type} (ops : ResponseType T) (r : option Request)
    (responseObj : option T) (tlsConfig : list (option tls_Config)) (w : World)
  : Executed T :=
  let transport :=
    match tlsConfig with
    | cfg :: _ => Some cfg
    | [] => DefaultClient_Transport w
    end in
  match r with
  | None => Panics
  | Some req =>
      let w := {| DefaultClient_Transport := transport; sent := (sent w ++ [req])%list |} in
      match client_Do transport req with
      | inr err => Returns (w, responseObj, Some err)
      | inl resp =>
          let coded :=
            match as_CodedResponse ops with
            | Some statusCoder => call statusCoder responseObj (StatusCode resp)
            | None => Returns (responseObj, tt)
            end in
          match coded with
          | Panics => Panics
          | Returns (responseObj, _) =>
              match as_CaptureReader ops with
              | Some captureReader =>
                  match call captureReader responseObj (Response_Body resp) with
                  | Panics => Panics
                  | Returns (responseObj, Some err) =>
                      Returns (w, responseObj,
                               Some (CaptureFailed (Method req)
                                       (URL_String (Request_URL req)) err))
                  | Returns (responseObj, None) => Returns (w, responseObj, None)
                  end
              | None =>
                  let body := content (Response_Body resp) in
                  match read_error (Response_Body resp) with
                  | Some err =>
                      Returns (w, responseObj,
                               Some (ParseBodyFailed (Method req)
                                       (URL_String (Request_URL req)) err))
                  | None =>
                      match responseObj with
                      | None =>
                          if negb (StatusCode resp =? 200) then
                            let errorObj :=
                              response.NewError zero_ErrorResponse (StatusCode resp)
                                (http_StatusText (StatusCode resp))
                                [Some (any_of_string "body"); Some (any_of_bytes body)] in
                            Returns (w, None, Some (ErrorCarrier errorObj))
                          else Returns (w, None, None)
                      | Some _ =>
                          let erred :=
                            match as_ErredResponse ops with
                            | Some erredResponse =>
                                if negb (StatusCode resp =? 200) then
                                  call erredResponse responseObj
                                    (StatusCode resp, "from response: %s",
                                     [Some (any_of_bytes body)])
                                else Returns (responseObj, tt)
                            | None => Returns (responseObj, tt)
                            end in
                          match erred with
                          | Panics => Panics
                          | Returns (responseObj, _) =>
                              match as_Unmarshaler ops with
                              | Some unmarshalAble =>
                                  match call unmarshalAble responseObj body with
                                  | Panics => Panics
                                  | Returns (responseObj, Some err) =>
                                      Returns (w, responseObj,
                                               Some (DecodeFailed (Method req)
                                                       (URL_String (Request_URL req)) err))
                                  | Returns (responseObj, None) => Returns (w, responseObj, None)
                                  end
                              | None =>
                                  match responseObj with
                                  | Some v =>
                                      let '(v, err) := json_Unmarshal ops body v in
                                      Returns (w, Some v, err)
                                  | None =>
                                      Returns (w, None,
                                               Some (External "json: Unmarshal(nil)"))
                                  end
                              end
                          end
                      end
                  end
              end
          end
      end
  end.

(** [func DoRequest[RequestType request.HttpRequest, ResponseType any](
    baseUrl string, clientRequest RequestType, responseObj *ResponseType,
    tlsConfig ...*tls.Config) error]. *)
Definition DoRequest {T : Type} (ops : ResponseType T) (baseUrl : string)
    (clientRequest : option HttpRequest) (responseObj : option T)
    (tlsConfig : list (option tls_Config)) (w : World) : Executed T :=
  match GenerateClientRequest baseUrl clientRequest with
  | Panics => Panics
  | Returns (_, Some err) => Returns (w, responseObj, Some err)
  | Returns (c, None) => DoGeneratedRequest ops c responseObj tlsConfig w
  end.

End Client.

Arguments on_nil {T A R} _ _.
Arguments on_value {T A R} _ _ _.
Arguments as_CodedResponse {fmt T} _.
Arguments as_CaptureReader {fmt T} _.
Arguments as_ErredResponse {fmt T} _.
Arguments as_Unmarshaler {fmt T} _.
Arguments json_Unmarshal {fmt T} _ _ _.

(** ** An executable runtime

    The closed examples of this development run the client on a small
    executable rendering of the Go library, given here.  It follows the
    library on the inputs of the examples (ASCII text, the verbs [%s], [%v]
    and [%d] without flags, URLs of the form [scheme://host/path?query],
    values without floating point numbers); the general theorems do not
    depend on it. *)
Module Example.

(** No floating point number occurs in the examples. *)
#[export] Instance floats : Floats := {|
  float64 := Empty_set;
  complex128 := Empty_set;
  strconv_FormatFloat := fun f _ _ _ => match f with end;
  strconv_FormatComplex := fun c _ _ _ => match c with end
|}.

(** *** [fmt] *)

Inductive dyn : Type :=
| AString (s : string)
| ABytes (b : string)
| AInt (n : Z)
| ABool (b : bool).

(** [%T]. *)
Definition type_name (a : dyn) : string :=
  match a with
  | AString _ => "string"
  | ABytes _ => "[]uint8"
  | AInt _ => "int"
  | ABool _ => "bool"
  end.

Definition byte_value (c : ascii) : string := pretty (Z.of_nat (nat_of_ascii c)).

(** [%v]. *)
Definition verb_v (a : option dyn) : string :=
  match a with
  | None => "<nil>"
  | Some (AString s) => s
  | Some (ABytes b) => "[" +:+ strings_Join (byte_value <$> list_ascii_of_string b) " " +:+ "]"
  | Some (AInt n) => pretty n
  | Some (ABool b) => strconv_FormatBool b
  end.

(** A verb that does not fit its operand. *)
Definition bad_verb (verb : ascii) (a : option dyn) : string :=
  match a with
  | None => "%!" +:+ String verb "(<nil>)"
  | Some d => "%!" +:+ String verb ("(" +:+ type_name d +:+ "=" +:+ verb_v a +:+ ")")
  end.

(** One verb applied to one operand; verbs other than [s], [v] and [d] are
    rendered as Go renders a verb it does not know. *)
Definition format_verb (verb : ascii) (a : option dyn) : string :=
  if Ascii.eqb verb "v" then verb_v a
  else if Ascii.eqb verb "s" then
    match a with
    | Some (AString s) => s
    | Some (ABytes b) => b
    | _ => bad_verb verb a
    end
  else if Ascii.eqb verb "d" then
    match a with
    | Some (AInt _) | Some (ABytes _) => verb_v a
    | _ => bad_verb verb a
    end
  else bad_verb verb a.

(** The operands left over when the format is exhausted. *)
Definition extra (args : list (option dyn)) : string :=
  match args with
  | [] => EmptyString
  | _ =>
      "%!(EXTRA "
      +:+ strings_Join
            ((fun a => match a with
                       | None => "<nil>"
                       | Some d => type_name d +:+ "=" +:+ verb_v a
                       end) <$> args) ", "
      +:+ ")"
  end.

Fixpoint sprintf (format : string) (args : list (option dyn)) : string :=
  match format with
  | EmptyString => extra args
  | String c rest =>
      if Ascii.eqb c "%" then
        match rest with
        | EmptyString => "%!(NOVERB)"
        | String verb rest' =>
            if Ascii.eqb verb "%" then String "%" (sprintf rest' args)
            else
              match args with
              | [] => "%!" +:+ String verb "(MISSING)" +:+ sprintf rest' []
              | a :: args' => format_verb verb a +:+ sprintf rest' args'
              end
        end
      else String c (sprintf rest args)
  end.

#[export] Instance fmt : Fmt := {|
  any := dyn;
  any_of_string := AString;
  any_of_bytes := ABytes;
  fmt_Sprintf := sprintf
|}.

(** *** [net/url] *)

Definition between (lo hi : nat) (c : ascii) : bool :=
  let n := nat_of_ascii c in (lo <=? n)%nat && (n <=? hi)%nat.

Definition is_alnum (c : ascii) : bool :=
  between 48 57 c || between 65 90 c || between 97 122 c.

Definition upper_hex (n : nat) : ascii :=
  nth n (list_ascii_of_string "0123456789ABCDEF") "0"%char.

Definition percent (c : ascii) : string :=
  let n := nat_of_ascii c in
  String "%" (String (upper_hex (n / 16)) (String (upper_hex (n mod 16)) EmptyString)).

(** The escaping loop of [net/url]: a byte outside [keep] is written as a
    percent escape, and a space as a plus sign when [plus] is set. *)
Fixpoint escape (keep : ascii -> bool) (plus : bool) (s : string) : string :=
  match s with
  | EmptyString => EmptyString
  | String c s' =>
      (if keep c then String c EmptyString
       else if plus && Ascii.eqb c " " then "+"
       else percent c) +:+ escape keep plus s'
  end.

(** [url.QueryEscape]: letters, digits and [-_.~] are kept. *)
Definition QueryEscape (s : string) : string :=
  escape (fun c => is_alnum c || in_cutset c "-_.~") true s.

Definition hex_value (c : ascii) : option nat :=
  if between 48 57 c then Some (nat_of_ascii c - 48)%nat
  else if between 65 70 c then Some (nat_of_ascii c - 55)%nat
  else if between 97 102 c then Some (nat_of_ascii c - 87)%nat
  else None.

(** The unescaping loop of [net/url]; [None] is [EscapeError]. *)
Fixpoint unescape (plus : bool) (s : string) : option string :=
  match s with
  | EmptyString => Some EmptyString
  | String c s' =>
      if Ascii.eqb c "%" then
        match s' with
        | String h (String l s'') =>
            match hex_value h, hex_value l, unescape plus s'' with
            | Some x, Some y, Some t => Some (String (ascii_of_nat (x * 16 + y)) t)
            | _, _, _ => None
            end
        | _ => None
        end
      else
        match unescape plus s' with
        | Some t => Some (String (if plus && Ascii.eqb c "+" then " "%char else c) t)
        | None => None
        end
  end.

(** The part of [s] before the first [sep], and the part after it if any. *)
Definition cut (s sep : string) : string * option string :=
  match strings_Split s sep with
  | [] => (s, None)
  | [before] => (before, None)
  | before :: after => (before, Some (strings_Join after sep))
  end.

(** Bytes a path keeps when it is escaped. *)
Definition path_safe (c : ascii) : bool := is_alnum c || in_cutset c "-_.~$&+,/:;=@".

Definition has_control (s : string) : bool :=
  existsb (fun c => between 0 31 c || between 127 127 c) (list_ascii_of_string s).

(** [url.Parse], for [scheme://host/path?query] and for a bare path. *)
Definition Parse (rawURL : string) : URL + error :=
  if has_control rawURL then inr (External "net/url: invalid control character in URL")
  else
    let '(rest, query) := cut rawURL "?" in
    let '(scheme, rest) :=
      match cut rest "://" with
      | (scheme, Some rest) => (scheme, rest)
      | (rest, None) => (EmptyString, rest)
      end in
    let '(host, path) :=
      if String.eqb scheme "" then (EmptyString, rest)
      else match cut rest "/" with
           | (host, Some path) => (host, "/" +:+ path)
           | (host, None) => (host, EmptyString)
           end in
    match unescape false path with
    | None => inr (External "invalid URL escape")
    | Some unescaped =>
        inl {| Scheme := scheme; Host := host; Path := unescaped;
               RawPath := if String.eqb (escape path_safe false unescaped) path
                          then EmptyString else path;
               RawQuery := default EmptyString query |}
    end.

(** [func (u *URL) String() string]. *)
Definition URL_to_string (u : URL) : string :=
  let escapedPath :=
    if negb (String.eqb (RawPath u) "")
       && bool_decide (unescape false (RawPath u) = Some (Path u))
    then RawPath u else escape path_safe false (Path u) in
  (if String.eqb (Scheme u) "" then EmptyString else Scheme u +:+ ":")
  +:+ (if negb (String.eqb (Scheme u) "") || negb (String.eqb (Host u) "")
       then (if negb (String.eqb (Host u) "") || negb (String.eqb (Path u) "")
             then "//" else EmptyString) +:+ Host u
       else EmptyString)
  +:+ (if negb (String.eqb escapedPath "") && negb (strings_HasPrefix escapedPath "/")
          && negb (String.eqb (Host u) "")
       then "/" else EmptyString)
  +:+ escapedPath
  +:+ (if String.eqb (RawQuery u) "" then EmptyString else "?" +:+ RawQuery u).

(** [url.Values], as the list of its keys with their values, kept sorted by
    key. *)
Definition Values := list (string * list string).

Fixpoint Values_add (v : Values) (key value : string) : Values :=
  match v with
  | [] => [(key, [value])]
  | (k, vs) :: rest =>
      match String.compare key k with
      | Eq => (k, (vs ++ [value])%list) :: rest
      | Lt => (key, [value]) :: v
      | Gt => (k, vs) :: Values_add rest key value
      end
  end.

(** [func (u *URL) Query() Values]: a pair that does not unescape is dropped. *)
Definition Query (u : URL) : Values :=
  if String.eqb (RawQuery u) "" then []
  else
    foldl (fun v pair =>
             if String.eqb pair "" then v
             else
               let '(key, value) := cut pair "=" in
               match unescape true key, unescape true (default EmptyString value) with
               | Some key, Some value => Values_add v key value
               | _, _ => v
               end)
          [] (strings_Split (RawQuery u) "&").

(** [func (v Values) Encode() string]. *)
Definition Encode (v : Values) : string :=
  strings_Join
    (mjoin ((fun '(k, vs) => (fun value => QueryEscape k +:+ "=" +:+ QueryEscape value) <$> vs)
            <$> v)) "&".

(** *** [net/http] *)

Definition is_token (c : ascii) : bool := is_alnum c || in_cutset c "!#$%&'*+-.^_`|~".

Definition all_bytes (p : ascii -> bool) (s : string) : bool :=
  forallb p (list_ascii_of_string s).

Definition to_upper (c : ascii) : ascii :=
  if between 97 122 c then ascii_of_nat (nat_of_ascii c - 32) else c.

Definition to_lower (c : ascii) : ascii :=
  if between 65 90 c then ascii_of_nat (nat_of_ascii c + 32) else c.

Fixpoint canonical (upper : bool) (s : string) : string :=
  match s with
  | EmptyString => EmptyString
  | String c s' =>
      String (if upper then to_upper c else to_lower c) (canonical (Ascii.eqb c "-") s')
  end.

(** [textproto.CanonicalMIMEHeaderKey]. *)
Definition CanonicalMIMEHeaderKey (s : string) : string :=
  if all_bytes is_token s then canonical true s else s.

(** [func (h Header) Add(key, value string)], [Set] and [Get]. *)
Definition Add (h : Header) (key value : string) : Header :=
  let key := CanonicalMIMEHeaderKey key in
  <[key := (default [] (h !! key) ++ [value])%list]> h.

Definition Set_ (h : Header) (key value : string) : Header :=
  <[CanonicalMIMEHeaderKey key := [value]]> h.

Definition Get (h : Header) (key : string) : string :=
  match h !! CanonicalMIMEHeaderKey key with
  | Some (v :: _) => v
  | _ => EmptyString
  end.

Definition filter_bytes (p : ascii -> bool) (s : string) : string :=
  string_of_list_ascii (List.filter p (list_ascii_of_string s)).

Definition sanitizeCookieName (n : string) : string :=
  string_of_list_ascii
    ((fun c => if between 10 10 c || between 13 13 c then "-"%char else c)
     <$> list_ascii_of_string n).

Definition sanitizeCookieValue (v : string) : string :=
  let v := filter_bytes (fun c => between 32 126 c && negb (between 34 34 c)
                                  && negb (Ascii.eqb c ";") && negb (between 92 92 c)) v in
  if String.eqb v "" then v
  else if negb (all_bytes (fun c => negb (in_cutset c " ,")) v) then dq +:+ v +:+ dq
  else v.

(** [func (r *Request) AddCookie(c *Cookie)]. *)
Definition AddCookie (r : Request) (c : Cookie) : Request :=
  let s := sanitizeCookieName (Cookie_Name c) +:+ "=" +:+ sanitizeCookieValue (Cookie_Value c) in
  let old := Get (Request_Header r) "Cookie" in
  {| Method := Method r; Request_URL := Request_URL r;
     Request_Header :=
       Set_ (Request_Header r) "Cookie" (if String.eqb old "" then s else old +:+ "; " +:+ s);
     Body := Body r |}.

(** [http.NewRequest]. *)
Definition NewRequest (method url : string) (body : option string)
  : option Request * option error :=
  let method := if String.eqb method "" then "GET" else method in
  if negb (all_bytes is_token method) then (None, Some (External "net/http: invalid method"))
  else
    match Parse url with
    | inr err => (None, Some err)
    | inl u => (Some {| Method := method; Request_URL := u; Request_Header := ∅;
                        Body := body |}, None)
    end.

(** [http.StatusText]. *)
Definition StatusText (code : Z) : string :=
  default EmptyString
    (list_to_map (M := gmap Z string)
       [(100, "Continue"); (101, "Switching Protocols"); (102, "Processing");
        (103, "Early Hints"); (200, "OK"); (201, "Created"); (202, "Accepted");
        (203, "Non-Authoritative Information"); (204, "No Content");
        (205, "Reset Content"); (206, "Partial Content"); (207, "Multi-Status");
        (208, "Already Reported"); (226, "IM Used"); (300, "Multiple Choices");
        (301, "Moved Permanently"); (302, "Found"); (303, "See Other");
        (304, "Not Modified"); (305, "Use Proxy"); (307, "Temporary Redirect");
        (308, "Permanent Redirect"); (400, "Bad Request"); (401, "Unauthorized");
        (402, "Payment Required"); (403, "Forbidden"); (404, "Not Found");
        (405, "Method Not Allowed"); (406, "Not Acceptable");
        (407, "Proxy Authentication Required"); (408, "Request Timeout");
        (409, "Conflict"); (410, "Gone"); (411, "Length Required");
        (412, "Precondition Failed"); (413, "Request Entity Too Large");
        (414, "Request URI Too Long"); (415, "Unsupported Media Type");
        (416, "Requested Range Not Satisfiable"); (417, "Expectation Failed");
        (418, "I'm a teapot"); (421, "Misdirected Request");
        (422, "Unprocessable Entity"); (423, "Locked"); (424, "Failed Dependency");
        (425, "Too Early"); (426, "Upgrade Required"); (428, "Precondition Required");
        (429, "Too Many Requests"); (431, "Request Header Fields Too Large");
        (451, "Unavailable For Legal Reasons"); (500, "Internal Server Error");
        (501, "Not Implemented"); (502, "Bad Gateway"); (503, "Service Unavailable");
        (504, "Gateway Timeout"); (505, "HTTP Version Not Supported");
        (506, "Variant Also Negotiates"); (507, "Insufficient Storage");
        (508, "Loop Detected"); (510, "Not Extended");
        (511, "Network Authentication Required")] !! code).

(** The server of the examples: nothing listens on host [down]; the body of
    [/broken] breaks off while it is read; [/missing] is not found;
    everything else is answered with an empty JSON object. *)
Definition server (transport : option (option tls_Config)) (req : Request)
  : Response + error :=
  let u := Request_URL req in
  if String.eqb (Host u) "down" then inr (External "dial tcp: connection refused")
  else if String.eqb (Path u) "/broken" then
    inl {| StatusCode := 404;
           Response_Body := {| content := "no"; read_error := Some (External "unexpected EOF") |} |}
  else if String.eqb (Path u) "/missing" then
    inl {| StatusCode := 404;
           Response_Body := {| content := "no such item"; read_error := None |} |}
  else inl {| StatusCode := 200; Response_Body := {| content := "{}"; read_error := None |} |}.

(** *** [encoding/json]

    [json.Marshal] on the values of the examples: strings of printable ASCII
    without quotes, backslashes or HTML brackets, integers, booleans,
    pointers, slices and structs of exported fields without [json] tags; a
    map or an interface is taken to be nil, an array to be empty and a
    [uintptr] to be zero, as a Value of those kinds carries no contents here.
    A channel, a function or an unsafe pointer has no JSON encoding
    ([UnsupportedTypeError], with a nil body). *)
Fixpoint json_text (v : Value) : option string :=
  match v with
  | VInvalid => Some "null"
  | VBool _ b => Some (strconv_FormatBool b)
  | VInt _ _ i => Some (pretty i)
  | VUint _ _ u => Some (pretty u)
  | VFloat _ _ f => match f with end
  | VComplex _ _ c => match c with end
  | VString _ s => Some (dq +:+ s +:+ dq)
  | VSlice _ elems =>
      (fix go (elems : list Value) (acc : list string) : option string :=
         match elems with
         | [] => Some ("[" +:+ strings_Join (rev acc) "," +:+ "]")
         | e :: rest =>
             match json_text e with
             | Some t => go rest (t :: acc)
             | None => None
             end
         end) elems []
  | VStruct _ fields =>
      (fix go (fields : list (StructField * Value)) (acc : list string) : option string :=
         match fields with
         | [] => Some ("{" +:+ strings_Join (rev acc) "," +:+ "}")
         | (fieldDesc, e) :: rest =>
             match json_text e with
             | Some t => go rest ((dq +:+ Name fieldDesc +:+ dq +:+ ":" +:+ t) :: acc)
             | None => None
             end
         end) fields []
  | VPtr _ elem => json_text elem
  | VOther _ (Chan_ | Func_ | UnsafePointer_) => None
  | VOther _ (Map_ | Interface_) => Some "null"
  | VOther _ Array_ => Some "[]"
  | VOther _ Uintptr_ => Some "0"
  end.

Definition Marshal (v : Value) : string * option error :=
  match json_text v with
  | Some text => (text, None)
  | None => (EmptyString, Some (External "json: unsupported type"))
  end.

(** [func (k Kind) String() string], which stands for
    [helpers.GetFriendlyRequestName] in the examples. *)
Definition kind_name (v : Value) : string :=
  match Value_Kind v with
  | KInvalid => "invalid" | KBool => "bool"
  | KInt => "int" | KInt8 => "int8" | KInt16 => "int16" | KInt32 => "int32"
  | KInt64 => "int64"
  | KUint => "uint" | KUint8 => "uint8" | KUint16 => "uint16" | KUint32 => "uint32"
  | KUint64 => "uint64" | KUintptr => "uintptr"
  | KFloat32 => "float32" | KFloat64 => "float64"
  | KComplex64 => "complex64" | KComplex128 => "complex128"
  | KArray => "array" | KChan => "chan" | KFunc => "func" | KInterface => "interface"
  | KMap => "map" | KPointer => "ptr" | KSlice => "slice" | KString => "string"
  | KStruct => "struct" | KUnsafePointer => "unsafe.Pointer"
  end.

#[export] Instance runtime : Runtime := {|
  url_QueryEscape := QueryEscape;
  url_Parse := Parse;
  URL_String := URL_to_string;
  url_Values := Values;
  URL_Query := Query;
  Values_Add := Values_add;
  Values_Encode := Encode;
  json_Marshal := Marshal;
  http_NewRequest := NewRequest;
  Request_AddCookie := AddCookie;
  Header_Add := Add;
  Header_Set := Set_;
  http_StatusText := StatusText;
  client_Do := server;
  GetFriendlyRequestName := kind_name;
  fromSwaggestTag := fun _ => (EmptyString, EmptyString, EmptyString, false)
|}.

(** *** The requests and responses of the examples *)

Definition fl : Flags := {| CanSet_flag := true; CanInterface_flag := true |}.

Definition field (name : string) (kind : Kind) (tag : StructTag) : StructField :=
  {| Name := name; Type_Kind := kind; Tag := tag; Anonymous := false |}.

Definition embedded (name : string) (kind : Kind) : StructField :=
  {| Name := name; Type_Kind := kind; Tag := []; Anonymous := true |}.

(** [GET http://h/v1/items], as [http.NewRequest] makes it. *)
Definition items_url : URL :=
  {| Scheme := "http"; Host := "h"; Path := "/v1/items"; RawPath := ""; RawQuery := "" |}.

Definition get_items : Request :=
  {| Method := "GET"; Request_URL := items_url; Request_Header := ∅; Body := None |}.

(** [UsingSkipClientValidation], the empty struct of the package that a
    request embeds to skip its validation, and
    [type ListItems struct { gkBoot.UsingSkipClientValidation;
    Token string `request:"header!"` }], with the given token. *)
Definition Token (token : string) : StructField * Value :=
  (field "Token" KString [("request", "header!")], VString fl token).

Definition UsingSkipClientValidation : StructField * Value :=
  (embedded "UsingSkipClientValidation" KStruct, VStruct fl []).

Definition ListItems (token : string) : Value :=
  VStruct fl [UsingSkipClientValidation; Token token].

(** The same with the two fields in the other order. *)
Definition ListItems' (token : string) : Value :=
  VStruct fl [Token token; UsingSkipClientValidation].

(** [struct { C chan int }]. *)
Definition Holder : Value := VStruct fl [(field "C" KChan [], VOther fl Chan_)].

(** [Secret string `json:"-,"`], [Hidden string `json:"-"`] and
    [Label string `json:"label,omitempty"`]. *)
Definition Secret : StructField := field "Secret" KString [("json", "-,")].
Definition Hidden : StructField := field "Hidden" KString [("json", "-")].
Definition Label : StructField := field "Label" KString [("json", "label,omitempty")].

(** A response type without any of the optional methods, decoded by
    [json.Unmarshal] into a struct without fields. *)
Definition plain : ResponseType unit :=
  {| as_CodedResponse := None; as_CaptureReader := None; as_ErredResponse := None;
     as_Unmarshaler := None; json_Unmarshal := fun _ v => (v, None) |}.

Definition quiet : World := {| DefaultClient_Transport := None; sent := [] |}.

Definition route (path : string) : HttpRouteInfo :=
  {| Info_Name := "ListItems"; Info_Method := "GET"; Info_Path := path |}.

(** A pointer to a struct with a required header that is empty, which builds
    its request itself: it implements [Requester]. *)
Definition self_made : HttpRequest :=
  {| Info := route "/v1/items"; as_Validator := None; as_SkipClientValidation := false;
     as_Requester := Some (Some get_items, None); as_jsonBody := false;
     reflect_ValueOf := VPtr fl (VStruct fl [Token ""]) |}.

(** [Trace string `request:"header"`], set, followed by the required token,
    empty, in a request without optional interfaces. *)
Definition Trace : StructField * Value :=
  (field "Trace" KString [("request", "header")], VString fl "t1").

Definition traced : HttpRequest :=
  {| Info := route "/v1/items"; as_Validator := None; as_SkipClientValidation := false;
     as_Requester := None; as_jsonBody := false;
     reflect_ValueOf := VPtr fl (VStruct fl [Trace; Token ""]) |}.

(** [GET http://h/v1/items/{id}], [GET http://h/broken] and
    [GET http://h/missing]. *)
Definition get_item : Request :=
  {| Method := "GET";
     Request_URL := {| Scheme := "http"; Host := "h"; Path := "/v1/items/{id}";
                       RawPath := "/v1/items/{id}"; RawQuery := "" |};
     Request_Header := ∅; Body := None |}.

Definition get_broken : Request :=
  {| Method := "GET";
     Request_URL := {| Scheme := "http"; Host := "h"; Path := "/broken"; RawPath := "";
                       RawQuery := "" |};
     Request_Header := ∅; Body := None |}.

(** A slice that holds the slice of the strings [a] and [b]; and a slice of
    a string with a space, a nil pointer and a plain string. *)
Definition letters : list Value := [VSlice fl [VString fl "a"; VString fl "b"]].

Definition spaced : list Value := [VString fl "a b"; VPtr fl VInvalid; VString fl "c"].

(** The answer of the server to [GET http://h/missing]. *)
Definition not_found : Response :=
  {| StatusCode := 404;
     Response_Body := {| content := "no such item"; read_error := None |} |}.

(** Three arguments for [Log]: a pair and a key without a value. *)
Definition three_values : list (option dyn) :=
  [Some (AString "a"); Some (AInt 1); Some (AString "b")].

Definition get_missing : Request :=
  {| Method := "GET";
     Request_URL := {| Scheme := "http"; Host := "h"; Path := "/missing"; RawPath := "";
                       RawQuery := "" |};
     Request_Header := ∅; Body := None |}.

(** *** More requests and targets *)

(** Two arguments for [Log]: one pair. *)
Definition one_pair : list (option dyn) := [Some (AString "a"); Some (AInt 1)].

(** [Note string `request:"form"`] and [Count int `request:"form"`]. *)
Definition Note : StructField * Value :=
  (field "Note" KString [("request", "form")], VString fl "a").

Definition Count : StructField * Value :=
  (field "Count" KInt [("request", "form")], VInt fl Int_ 1).

(** A field without tags, and a pointer, without tags, to a struct with a
    required token that is empty. *)
Definition Internal : StructField * Value := (field "Internal" KString [], VString fl "x").

Definition Inner : StructField * Value :=
  (field "Inner" KPointer [], VPtr fl (VStruct fl [Token ""])).

(** [Blob string `request:"form!"`], and an embedded pointer that is nil. *)
Definition Blob : StructField * Value :=
  (field "Blob" KString [("request", "form!")], VString fl "x").

Definition Base : StructField * Value := (embedded "Base" KPointer, VPtr fl VInvalid).

(** A request without optional interfaces, with the given method and path,
    that is a pointer to a struct without fields. *)
Definition bare (method path : string) : HttpRequest :=
  {| Info := {| Info_Name := "Bare"; Info_Method := method; Info_Path := path |};
     as_Validator := None; as_SkipClientValidation := false;
     as_Requester := None; as_jsonBody := false;
     reflect_ValueOf := VPtr fl (VStruct fl []) |}.

(** A request whose [Validate] fails, and a request that is a nil pointer. *)
Definition invalid : HttpRequest :=
  {| Info := route "/v1/items"; as_Validator := Some (Some (External "no token"));
     as_SkipClientValidation := false; as_Requester := None; as_jsonBody := false;
     reflect_ValueOf := VPtr fl (VStruct fl [Token ""]) |}.

Definition nil_request : HttpRequest :=
  {| Info := route "/v1/items"; as_Validator := None; as_SkipClientValidation := false;
     as_Requester := None; as_jsonBody := false; reflect_ValueOf := VPtr fl VInvalid |}.

(** A response type with a [Capture] method that takes the body and returns
    no error, also on nil. *)
Definition taking : PtrMethod unit ReadCloser (option error) :=
  {| on_nil := fun _ => Returns None; on_value := fun v _ => Returns (v, None) |}.

Definition capturing : ResponseType unit :=
  {| as_CodedResponse := None; as_CaptureReader := Some taking; as_ErredResponse := None;
     as_Unmarshaler := None; json_Unmarshal := fun _ v => (v, None) |}.



End Example.

(** * Properties *)

#[local] Arguments String.append : simpl nomatch.
#[local] Arguments strings_HasPrefix : simpl never.

(** ** Package [response] *)
Section ResponseFacts.
Context {fmt : Fmt}.
Import response.

Lemma Failed_message (b : ErrorResponse) :
  Failed b = if bool_decide (errString b = "") then None else Some b.
Proof.
  unfold Failed. destruct (decide (errString b = "")) as [E | E].
  - rewrite (bool_decide_eq_false_2 _) by (intros N; apply N, E).
    by rewrite (bool_decide_eq_true_2 _ E).
  - rewrite (bool_decide_eq_true_2 _ E). by rewrite (bool_decide_eq_false_2 _ E).
Qed.

(** C9: [Failed] returns the response as an error exactly when its message is
    not empty; a [NewError] whose formatted message is empty stores the code
    and leaves [Failed] returning the nil error. *)
Theorem Failed_exactly_when_message (b : ErrorResponse) (code : Z) (format : string)
    (vars : list iface) :
  (Failed b = Some b <-> errString b <> "") /\
  (Failed b = None <-> errString b = "") /\
  (fmt_Sprintf format vars = "" ->
   StatusCode (basic (NewError b code format vars)) = code /\
   Failed (NewError b code format vars) = None).
Proof.
  rewrite !Failed_message. split; [| split].
  - case_bool_decide; split; congruence.
  - case_bool_decide; split; congruence.
  - intros E. split; [reflexivity |].
    simpl. by rewrite E.
Qed.

(** Induction on a list two elements at a time, as [Log] reads its
    arguments. *)
Lemma pairwise_ind {A : Type} (P : list A -> Prop) :
  P [] -> (forall k, P [k]) -> (forall k v rest, P rest -> P (k :: v :: rest)) ->
  forall l, P l.
Proof.
  intros H0 H1 H2.
  assert (forall l, P l /\ forall a, P (a :: l)) as Both.
  { induction l as [| x l [IH IH']]; split; auto. }
  intros l. apply Both.
Qed.

(** A key that is at no even position of the arguments keeps its entry. *)
Lemma log_entries_other (values : list iface) :
  forall (m : gmap string iface) (s : string),
    (forall (i : nat) k, values !! (2 * i)%nat = Some k -> fmt_Sprintf "%s" [k] <> s) ->
    log_entries m values !! s = m !! s.
Proof.
  induction values as [| k | k v rest IH] using pairwise_ind; intros m s Hs.
  - reflexivity.
  - simpl. apply lookup_insert_ne. by apply (Hs 0%nat).
  - simpl. rewrite IH.
    + apply lookup_insert_ne. by apply (Hs 0%nat).
    + intros i k' Hi. apply (Hs (S i)).
      replace (2 * S i)%nat with (S (S (2 * i))) by lia. exact Hi.
Qed.

(** The key at an even position is mapped to the value that follows it, or to
    nil when none follows, unless the same key comes again later. *)
Lemma log_entries_at (values : list iface) :
  forall (m : gmap string iface) (i : nat) k,
    values !! (2 * i)%nat = Some k ->
    (forall (j : nat) k', (i < j)%nat -> values !! (2 * j)%nat = Some k' ->
                          fmt_Sprintf "%s" [k'] <> fmt_Sprintf "%s" [k]) ->
    log_entries m values !! fmt_Sprintf "%s" [k]
    = Some (default None (values !! (2 * i + 1)%nat)).
Proof.
  induction values as [| k0 | k0 v0 rest IH] using pairwise_ind; intros m i k Hi Hlater.
  - by rewrite lookup_nil in Hi.
  - destruct i as [| i]; simpl in Hi.
    + injection Hi as ->. simpl. apply lookup_insert_eq.
    + replace (2 * S i)%nat with (S (S (2 * i))) in Hi by lia. discriminate.
  - destruct i as [| i].
    + simpl in Hi. injection Hi as ->. simpl.
      rewrite log_entries_other.
      * apply lookup_insert_eq.
      * intros j k' Hj. apply (Hlater (S j)); [lia |].
        replace (2 * S j)%nat with (S (S (2 * j))) by lia. exact Hj.
    + replace (2 * S i)%nat with (S (S (2 * i))) in Hi by lia. simpl in Hi.
      replace (2 * S i + 1)%nat with (S (S (2 * i + 1))) by lia. simpl.
      apply IH; [exact Hi |].
      intros j k' Hj Hk'. apply (Hlater (S j)); [lia |].
      replace (2 * S j)%nat with (S (S (2 * j))) by lia. exact Hk'.
Qed.

(** The copying loop of [GetAll] rebuilds the map it ranges over. *)
Lemma copy_entries (m : gmap string iface) :
  map_fold (fun k v result => <[k := v]> result) ∅ m = m.
Proof.
  apply (map_fold_weak_ind (fun r m => r = m)); [reflexivity |].
  intros i x m0 r _ ->. reflexivity.
Qed.

Lemma Log_lvalues (l : ExpandedLogging) (values : list iface) (h : maps) :
  exists p, lvalues (Log l values h).1 = Some p /\
            (Log l values h).2 !! p = Some (log_entries (deref_map h (lvalues l)) values) /\
            (forall q, q <> p -> is_Some (h !! q) -> (Log l values h).2 !! q = h !! q) /\
            (forall q, lvalues l = Some q -> q = p).
Proof.
  unfold Log, make_map. destruct (lvalues l) as [p |] eqn:E; simpl.
  - exists p. split; [reflexivity |]. split; [| split].
    + rewrite lookup_insert_eq. reflexivity.
    + intros q Hq _. by rewrite lookup_insert_ne.
    + intros q [= ->]. reflexivity.
  - exists (fresh (dom h)). split; [reflexivity |]. split; [| split].
    + rewrite !lookup_insert_eq. reflexivity.
    + intros q Hq _. by rewrite !lookup_insert_ne.
    + intros q [=].
Qed.

(** [GetAll] on a state whose map is in the store: the returned address is
    new, it holds the entries of the map, nothing else in the store changes,
    and a later [Log] leaves the returned map as it is. *)
Lemma GetAll_copy (l : ExpandedLogging) (h : maps) :
  allocated l h ->
  let r := (GetAll l h).1 in
  let h2 := (GetAll l h).2 in
  h2 !! r = Some (deref_map h (lvalues l)) /\
  h !! r = None /\
  lvalues l <> Some r /\
  (forall p, p <> r -> h2 !! p = h !! p) /\
  (forall values, (Log l values h2).2 !! r = Some (deref_map h (lvalues l))).
Proof.
  intros Hal r h2.
  assert (h !! r = None) as Hfresh.
  { apply not_elem_of_dom. apply is_fresh. }
  assert (lvalues l <> Some r) as Hne.
  { intros E. destruct (Hal _ E) as [m Hm]. rewrite Hfresh in Hm. discriminate. }
  assert (h2 !! r = Some (deref_map h (lvalues l))) as Hr.
  { unfold h2, r, GetAll, make_map. simpl. rewrite lookup_insert_eq. by rewrite copy_entries. }
  assert (forall p, p <> r -> h2 !! p = h !! p) as Hother.
  { intros p Hp. unfold h2, GetAll, make_map. simpl. by rewrite !lookup_insert_ne. }
  repeat split; try assumption.
  intros values.
  destruct (Log_lvalues l values h2) as (p & Hp & _ & Hkeep & Hsame).
  destruct (decide (p = r)) as [-> | Hpr].
  - (* the map of [l] would be the new one: only if [l] had none, but then a
       newer address still is chosen *)
    exfalso. unfold Log, make_map in Hp. destruct (lvalues l) as [q |] eqn:E; simpl in Hp.
    + congruence.
    + injection Hp as Hp. assert (r ∈ dom h2) as Hin.
      { apply elem_of_dom. rewrite Hr. eauto. }
      rewrite <- Hp in Hin. by apply is_fresh in Hin.
  - rewrite Hkeep; [exact Hr | congruence | rewrite Hr; eauto].
Qed.

(** C10: [Log] reads its arguments as key/value pairs, the keys at the even
    positions, stringified, and the values at the odd ones; a last argument
    without a partner is a key mapped to nil; a later [Log] with an equal key
    overwrites the value; and [GetAll] returns the accumulated mapping in a
    map of its own. *)
Theorem Log_pairs_GetAll_copy (l : ExpandedLogging) (h : maps) (values : list iface) :
  let m := deref_map h (lvalues l) in
  let l' := (Log l values h).1 in
  let h' := (Log l values h).2 in
  let m' := deref_map h' (lvalues l') in
  (forall (i : nat) k,
      values !! (2 * i)%nat = Some k ->
      (forall (j : nat) k', (i < j)%nat -> values !! (2 * j)%nat = Some k' ->
                            fmt_Sprintf "%s" [k'] <> fmt_Sprintf "%s" [k]) ->
      m' !! fmt_Sprintf "%s" [k] = Some (default None (values !! (2 * i + 1)%nat))) /\
  (forall s, (forall (i : nat) k, values !! (2 * i)%nat = Some k -> fmt_Sprintf "%s" [k] <> s) ->
             m' !! s = m !! s) /\
  (Nat.Odd (length values) ->
   exists k, last values = Some k /\ m' !! fmt_Sprintf "%s" [k] = Some None) /\
  (forall k2 v2,
      let l2 := (Log l' [k2; v2] h').1 in
      let h2 := (Log l' [k2; v2] h').2 in
      deref_map h2 (lvalues l2) !! fmt_Sprintf "%s" [k2] = Some v2 /\
      forall s, s <> fmt_Sprintf "%s" [k2] -> deref_map h2 (lvalues l2) !! s = m' !! s) /\
  (let r := (GetAll l' h').1 in
   let h2 := (GetAll l' h').2 in
   h2 !! r = Some m' /\
   h' !! r = None /\
   lvalues l' <> Some r /\
   (forall p, p <> r -> h2 !! p = h' !! p) /\
   (forall values2, (Log l' values2 h2).2 !! r = Some m')).
Proof.
  intros m l' h' m'.
  destruct (Log_lvalues l values h) as (p & Hp & Hm & _ & _).
  assert (m' = log_entries m values) as Em'.
  { unfold m', l', h'. rewrite Hp. simpl. by rewrite Hm. }
  split; [| split; [| split; [| split]]].
  - intros i k Hi Hlater. rewrite Em'. by apply log_entries_at.
  - intros s Hs. rewrite Em'. by apply log_entries_other.
  - intros [n Hn].
    assert (values !! (2 * n)%nat = last values) as Hlast.
    { rewrite last_lookup. f_equal. lia. }
    destruct (values !! (2 * n)%nat) as [k |] eqn:Hk.
    + exists k. split; [done |].
      rewrite Em'. rewrite (log_entries_at values m n k Hk).
      * rewrite lookup_ge_None_2 by lia. reflexivity.
      * intros j k' Hj Hk'. apply lookup_lt_Some in Hk'. lia.
    + apply lookup_ge_None in Hk. lia.
  - intros k2 v2 l2 h2.
    destruct (Log_lvalues l' [k2; v2] h') as (q & Hq & Hmq & _ & _).
    assert (deref_map h2 (lvalues l2) = <[fmt_Sprintf "%s" [k2] := v2]> m') as E2.
    { unfold l2, h2. rewrite Hq. simpl. rewrite Hmq. reflexivity. }
    rewrite E2. split.
    + apply lookup_insert_eq.
    + intros s Hs. by rewrite lookup_insert_ne.
  - apply GetAll_copy. intros q Hq. unfold l', h' in *. rewrite Hp in Hq.
    injection Hq as <-. rewrite Hm. eauto.
Qed.

End ResponseFacts.

(** ** Go strings *)

Lemma append_assoc (a b c : string) : (a +:+ b) +:+ c = a +:+ (b +:+ c).
Proof. induction a as [| x a IH]; simpl; congruence. Qed.

Lemma append_empty (a : string) : a +:+ "" = a.
Proof. induction a as [| x a IH]; simpl; congruence. Qed.

Lemma HasPrefix_Contains (s p : string) :
  strings_HasPrefix s p = true -> strings_Contains s p = true.
Proof. intros E. destruct s; cbn [strings_Contains]; rewrite E; reflexivity. Qed.

Lemma split_scan_cons (sep : string) (s : string) :
  forall skip cur, exists first others, split_scan sep skip cur s = first :: others.
Proof.
  induction s as [| c s IH]; intros skip cur; simpl.
  - eauto.
  - destruct skip; [| apply IH].
    destruct (strings_HasPrefix (String c s) sep); [eauto | apply IH].
Qed.

Lemma Join_cons (first : string) (others : list string) (sep : string) :
  others <> [] -> strings_Join (first :: others) sep = first +:+ sep +:+ strings_Join others sep.
Proof. destruct others; [congruence | reflexivity]. Qed.

(** Replacing is splitting at the old text and joining with the new one. *)
Lemma replace_scan_split_scan (old new : string) (s : string) :
  forall skip cur,
    cur +:+ replace_scan old new None skip s = strings_Join (split_scan old skip cur s) new.
Proof.
  induction s as [| c s IH]; intros skip cur; simpl.
  - apply append_empty.
  - destruct skip as [| k]; [| apply IH].
    destruct (strings_HasPrefix (String c s) old).
    + rewrite Join_cons.
      * rewrite <- IH. reflexivity.
      * destruct (split_scan_cons old s (String.length old - 1) "") as (f & o & ->). congruence.
    + rewrite <- IH. by rewrite append_assoc.
Qed.

Lemma Replace_Join_Split (s old new : string) :
  old <> "" -> strings_Replace s old new (-1) = strings_Join (strings_Split s old) new.
Proof.
  intros Hold. destruct old as [| c old]; [congruence |].
  unfold strings_Replace, strings_Split. by rewrite <- replace_scan_split_scan.
Qed.

(** The first element of a split at commas is the text before the first
    comma. *)
Lemma split_comma_first (s : string) :
  forall cur, exists seg rest,
    split_scan "," O cur s !! 0%nat = Some (cur +:+ seg) /\
    s = seg +:+ rest /\
    strings_Contains seg "," = false /\
    (rest = "" \/ strings_HasPrefix rest "," = true).
Proof.
  induction s as [| c s IH]; intros cur.
  - exists "", "". rewrite append_empty. repeat split; auto.
  - cbn [split_scan]. unfold strings_HasPrefix at 1. cbn [String.prefix].
    destruct (Ascii.ascii_dec "," c) as [<- | Hc].
    + exists "", (String "," s). rewrite append_empty.
      assert (String.prefix "" s = true) as -> by (by destruct s).
      split; [reflexivity |]. split; [reflexivity |]. split; [reflexivity |].
      right. unfold strings_HasPrefix. cbn [String.prefix].
      destruct (Ascii.ascii_dec "," ","); [by destruct s | congruence].
    + destruct (IH (cur +:+ String c "")) as (seg & rest & H0 & -> & Hno & Hrest).
      exists (String c seg), rest. rewrite H0, append_assoc.
      split; [reflexivity |]. split; [reflexivity |]. split; [| exact Hrest].
      cbn [strings_Contains]. unfold strings_HasPrefix at 1. cbn [String.prefix].
      destruct (Ascii.ascii_dec "," c); [congruence | exact Hno].
Qed.

(** ** The client *)
Section ClientFacts.
Context {floats : Floats} {runtime : Runtime} {fmt : Fmt}.

(** *** The Value Converter *)

(** C8: a chain of pointers of any depth that ends in nil converts to no
    string at all, and a chain that ends in a value converts as that value
    does. *)
Theorem pointer_chain_conversion (fls : list Flags) (urlEncode : bool) :
  convertBaseValueToString (foldr VPtr VInvalid fls) urlEncode = None /\
  (forall v, convertBaseValueToString (foldr VPtr v fls) urlEncode
             = convertBaseValueToString v urlEncode).
Proof.
  induction fls as [| fl fls [IHnil IHv]]; simpl.
  - split; reflexivity.
  - split; [exact IHnil | exact IHv].
Qed.

Lemma accumulate_omap (convert : Value -> option string) (urlEncode : bool)
    (elems : list Value) :
  accumulate convert urlEncode elems
  = (fun s => if urlEncode then url_QueryEscape s else s) <$> omap convert elems.
Proof.
  induction elems as [| e elems IH]; simpl; [reflexivity |].
  destruct (convert e); simpl; by rewrite IH.
Qed.

(** With [urlEncode], a value that is not a slice behind its pointers
    converts to the escaped form of its plain conversion. *)
Lemma convert_escapes (e : Value) :
  slice_behind_pointers e = false ->
  convertBaseValueToString e true = url_QueryEscape <$> convertBaseValueToString e false.
Proof.
  induction e as [| | | | fl k f | fl k c | | | fl fields | |]; simpl; intros Hs;
    try reflexivity; try discriminate; auto.
  - by destruct k.
  - by destruct k.
  - destruct (CanInterface_flag fl); [| reflexivity].
    by destruct (json_Marshal (VStruct fl fields)).
Qed.

Lemma omap_escapes (elems : list Value) :
  Forall (fun e => slice_behind_pointers e = false) elems ->
  omap (fun e => convertBaseValueToString e true) elems
  = url_QueryEscape <$> omap (fun e => convertBaseValueToString e false) elems.
Proof.
  induction 1 as [| e elems He Hall IH]; [reflexivity |].
  cbn [omap list_omap]. rewrite (convert_escapes e He).
  destruct (convertBaseValueToString e false); simpl.
  - f_equal. exact IH.
  - exact IH.
Qed.

(** C6, as amended: the elements of a slice are converted one by one,
    an element without a string is skipped, and the strings are joined by
    commas that are not escaped; with [urlEncode] the string of each element,
    converted with [urlEncode], is escaped once more, so that an element that
    is not itself a slice behind its pointers is escaped twice. *)
Theorem slice_conversion (fl : Flags) (elems : list Value) (urlEncode : bool) :
  convertBaseValueToString (VSlice fl elems) urlEncode
  = Some (convertSliceToStringValue elems urlEncode) /\
  convertSliceToStringValue elems urlEncode
  = strings_Join
      ((fun s => if urlEncode then url_QueryEscape s else s)
       <$> omap (fun e => convertBaseValueToString e urlEncode) elems) "," /\
  (Forall (fun e => slice_behind_pointers e = false) elems ->
   convertSliceToStringValue elems true
   = strings_Join
       ((fun s => url_QueryEscape (url_QueryEscape s))
        <$> omap (fun e => convertBaseValueToString e false) elems) ",").
Proof.
  split; [reflexivity |]. split.
  - unfold convertSliceToStringValue. by rewrite accumulate_omap.
  - intros Hall. unfold convertSliceToStringValue.
    rewrite accumulate_omap, (omap_escapes elems Hall), <- list_fmap_compose.
    reflexivity.
Qed.

(** *** The writers *)

(** C5: the path writer fails on a required value that is absent or empty,
    leaving the request as it is; it fails when the placeholder is not in the
    path, required or not; and otherwise it replaces the placeholder, wherever
    the path has it, by the converted value, or by nothing when the value is
    absent. *)
Theorem writeRequestPath_spec (req : Request) (fieldName : string) (fieldValue : Value)
    (isRequired urlEncode : bool) :
  let convertedValue := convertBaseValueToString fieldValue urlEncode in
  let path := Path (Request_URL req) in
  let placeholder := "{" +:+ fieldName +:+ "}" in
  (isRequired = true -> nil_or_empty convertedValue = true ->
   forall r, writeRequestPath r fieldName fieldValue isRequired urlEncode
             = Returns (r, Some (RequiredPathNotSet fieldName))) /\
  (strings_Contains path placeholder = false ->
   exists err, writeRequestPath (Some req) fieldName fieldValue isRequired urlEncode
               = Returns (Some req, Some err)) /\
  (isRequired && nil_or_empty convertedValue = false ->
   strings_Contains path placeholder = true ->
   exists req',
     writeRequestPath (Some req) fieldName fieldValue isRequired urlEncode
     = Returns (Some req', None) /\
     Path (Request_URL req')
     = strings_Join (strings_Split path placeholder) (default "" convertedValue) /\
     Path (Request_URL req')
     = strings_Replace path placeholder (default "" convertedValue) (-1) /\
     Method req' = Method req /\ Request_Header req' = Request_Header req /\
     Body req' = Body req /\ RawQuery (Request_URL req') = RawQuery (Request_URL req)).
Proof.
  intros convertedValue path placeholder.
  assert (forall r, writeRequestPath r fieldName fieldValue isRequired urlEncode
          = if isRequired && nil_or_empty convertedValue
            then Returns (r, Some (RequiredPathNotSet fieldName))
            else deref_request r (fun req0 =>
                   if negb (strings_Contains (Path (Request_URL req0)) placeholder)
                   then Returns (r, Some (PathVariableNotFound fieldName
                                            (Path (Request_URL req0)) placeholder))
                   else Returns
                          (Some {| Method := Method req0;
                                   Request_URL :=
                                     {| Scheme := Scheme (Request_URL req0);
                                        Host := Host (Request_URL req0);
                                        Path := strings_Replace (Path (Request_URL req0))
                                                  placeholder (default "" convertedValue) (-1);
                                        RawPath := RawPath (Request_URL req0);
                                        RawQuery := RawQuery (Request_URL req0) |};
                                   Request_Header := Request_Header req0;
                                   Body := Body req0 |}, None))) as Eq.
  { intros r. unfold writeRequestPath. fold convertedValue.
    destruct (isRequired && nil_or_empty convertedValue); [reflexivity |].
    destruct r as [req0 |]; [| reflexivity]. cbn [deref_request].
    fold placeholder.
    destruct (negb (strings_Contains (Path (Request_URL req0)) placeholder));
      [reflexivity |].
    by destruct convertedValue. }
  split; [| split].
  - intros -> Hempty r. rewrite Eq. cbn [andb]. rewrite Hempty. reflexivity.
  - intros Hmissing. rewrite Eq.
    destruct (isRequired && nil_or_empty convertedValue); [eauto |].
    cbn [deref_request]. fold path. rewrite Hmissing. cbn [negb]. eauto.
  - intros Hreq Hpresent. rewrite Eq, Hreq. cbn [deref_request]. fold path.
    rewrite Hpresent. cbn [negb].
    eexists. split; [reflexivity |]. cbn [Request_URL Path Method Request_Header Body RawQuery].
    assert (placeholder <> "") as Hne by (unfold placeholder; discriminate).
    rewrite <- (Replace_Join_Split _ _ _ Hne). auto 10.
Qed.

(** *** The Tag Resolver *)

(** C3, as amended: when the structured-schema source does not apply, the
    serialization alias is the text of the [json] tag before its first comma;
    it is empty when that text is [-], except for the tag [-,], whose alias is
    [-] itself.  For the bare [-] the wire name so falls back to the alias or
    to the identifier; for [-,] it is [-] unless there is an alias. *)
Theorem serialization_alias (field : StructField) (tag sw_part sw_alias sw_json : string) :
  fromSwaggestTag field = (sw_part, sw_alias, sw_json, false) ->
  Tag_Lookup (Tag field) "json" = Some tag ->
  let '(requestPart, alias, jsonAlias, encode) := readClientTag field in
  (exists seg rest,
      tag = seg +:+ rest /\
      strings_Contains seg "," = false /\
      (rest = "" \/ strings_HasPrefix rest "," = true) /\
      jsonAlias = if String.eqb tag "-," then "-"
                  else if String.eqb seg "-" then "" else seg) /\
  (tag = "-" ->
   jsonAlias = "" /\
   wireName field alias jsonAlias = if String.eqb alias "" then Name field else alias) /\
  (tag = "-," ->
   jsonAlias = "-" /\
   wireName field alias jsonAlias = if String.eqb alias "" then "-" else alias).
Proof.
  intros Hsw Hjson. unfold readClientTag. rewrite Hsw, Hjson. cbv beta iota zeta.
  split; [| split].
  - destruct (split_comma_first tag "") as (seg & rest & H0 & Htag & Hno & Hrest).
    exists seg, rest. repeat (split; [assumption |]).
    unfold strings_Split. rewrite H0. reflexivity.
  - intros ->. split; [reflexivity |].
    change (String.eqb "-" "-,") with false. cbv iota.
    change (default "" (strings_Split "-" "," !! 0%nat)) with "-".
    change (String.eqb "-" "-") with true. cbv iota.
    unfold wireName. by destruct (String.eqb _ "").
  - intros ->. split; [reflexivity |].
    change (String.eqb "-," "-,") with true. cbv iota.
    unfold wireName. by destruct (String.eqb _ "").
Qed.

(** *** Structs whose JSON encoding fails *)

(** Whatever [json.Marshal] reports, the struct converts to the body it
    returns: the string set on an error is overwritten. *)
Lemma struct_conversion_is_body (fl : Flags) (fields : list (StructField * Value))
    (urlEncode : bool) :
  CanInterface_flag fl = true ->
  convertBaseValueToString (VStruct fl fields) urlEncode
  = Some (if urlEncode then url_QueryEscape (json_Marshal (VStruct fl fields)).1
          else (json_Marshal (VStruct fl fields)).1).
Proof.
  intros Hfl. simpl. rewrite Hfl. by destruct (json_Marshal (VStruct fl fields)).
Qed.

(** *** The Field Assigner *)

Lemma onTraversed_traversePointers {A : Type} (k : Value -> A) (v : Value) :
  onTraversed k v = k (traversePointers v).
Proof.
  induction v as [| | | | | | | | | fl elem IH |]; try reflexivity.
  destruct elem; try reflexivity; exact IH.
Qed.

Lemma assignFields_ext (f g : option Request -> StructField -> Value -> Written)
    (fields : list (StructField * Value)) :
  (forall r fieldDesc field_i, f r fieldDesc field_i = g r fieldDesc field_i) ->
  forall r, assignFields f r fields = assignFields g r fields.
Proof.
  intros Hfg. induction fields as [| [fieldDesc field_i] rest IH]; intros r; simpl.
  - reflexivity.
  - destruct (assignField r fieldDesc field_i); auto.
Qed.

(** [assignRequest] on a struct is the loop over its fields, where the
    recursive call is on [fieldVal]. *)
Lemma assignRequest_struct (r : option Request) (fl : Flags)
    (fields : list (StructField * Value)) :
  assignRequest r (VStruct fl fields)
  = assignFields (fun r fieldDesc field_i => assignRequest r (fieldValue fieldDesc field_i))
      r fields.
Proof.
  simpl. apply assignFields_ext. intros r0 fieldDesc field_i. unfold fieldValue.
  destruct (bool_decide (Type_Kind fieldDesc = KPointer)); [| reflexivity].
  apply onTraversed_traversePointers.
Qed.

(** The loop returns what the recursive call returns, error or not: the
    fields after the one it recurses into play no part. *)
Lemma assignRequest_recursion_returns (r : option Request) (fl : Flags)
    (fieldDesc : StructField) (field_i : Value) (rest : list (StructField * Value)) :
  assignField r fieldDesc field_i = Recurse ->
  assignRequest r (VStruct fl ((fieldDesc, field_i) :: rest))
  = assignRequest r (fieldValue fieldDesc field_i).
Proof. intros Hstep. rewrite assignRequest_struct. simpl. by rewrite Hstep. Qed.

Lemma assignRequest_next (r r1 : option Request) (fl : Flags)
    (fieldDesc : StructField) (field_i : Value) (rest : list (StructField * Value)) :
  assignField r fieldDesc field_i = Next r1 ->
  assignRequest r (VStruct fl ((fieldDesc, field_i) :: rest))
  = assignRequest r1 (VStruct fl rest).
Proof. intros Hstep. rewrite !assignRequest_struct. simpl. by rewrite Hstep. Qed.

(** The body of the loop for a field whose placement tag is the required tag
    [tag], served by [writer]. *)
Ltac required_tag tag writer :=
  change (String.eqb tag "") with false;
  change (String.eqb tag "form") with false;
  change (returnClientOperationByTagValue tag) with (Some writer);
  change (strings_HasSuffix tag "!") with true;
  cbn [andb negb]; cbv iota.

(** A required field whose value is absent or empty makes the body of the
    loop return the error of its writer. *)
Lemma assignField_required (r : option Request) (fieldDesc : StructField) (field_i : Value)
    (requestTag alias jsonAlias encode : string) (err : error) :
  readClientTag fieldDesc = (requestTag, alias, jsonAlias, encode) ->
  requiredNotSet requestTag (wireName fieldDesc alias jsonAlias) = Some err ->
  (forall urlEncode,
      nil_or_empty (convertBaseValueToString (fieldValue fieldDesc field_i) urlEncode) = true) ->
  assignField r fieldDesc field_i = Return_ (Returns (r, Some err)).
Proof.
  intros Htag Herr Hempty. unfold assignField. rewrite Htag. cbv beta iota zeta.
  unfold requiredNotSet in Herr.
  destruct (String.eqb requestTag "cookie!") eqn:E1;
    [apply String.eqb_eq in E1; subst requestTag; injection Herr as <- |].
  { required_tag "cookie!" writeRequestCookie. unfold writeRequestCookie. by rewrite Hempty. }
  destruct (String.eqb requestTag "header!") eqn:E2;
    [apply String.eqb_eq in E2; subst requestTag; injection Herr as <- |].
  { required_tag "header!" writeRequestHeader. unfold writeRequestHeader. by rewrite Hempty. }
  destruct (String.eqb requestTag "query!") eqn:E3;
    [apply String.eqb_eq in E3; subst requestTag; injection Herr as <- |].
  { required_tag "query!" writeRequestQueryParam. unfold writeRequestQueryParam. by rewrite Hempty. }
  destruct (String.eqb requestTag "path!") eqn:E4;
    [apply String.eqb_eq in E4; subst requestTag; injection Herr as <- |].
  { required_tag "path!" writeRequestPath. unfold writeRequestPath. by rewrite Hempty. }
  discriminate.
Qed.

(** When the walk comes to a required field whose value is absent or empty,
    [assignRequest] returns the error of its writer. *)
Lemma assignRequest_required (r r' : option Request)
    (fields : list (StructField * Value)) (fieldDesc : StructField) (field_i : Value) :
  reaches r fields r' fieldDesc field_i ->
  forall (fl : Flags) (requestTag alias jsonAlias encode : string) (err : error),
    readClientTag fieldDesc = (requestTag, alias, jsonAlias, encode) ->
    requiredNotSet requestTag (wireName fieldDesc alias jsonAlias) = Some err ->
    (forall urlEncode,
        nil_or_empty (convertBaseValueToString (fieldValue fieldDesc field_i) urlEncode)
        = true) ->
    assignRequest r (VStruct fl fields) = Returns (r', Some err).
Proof.
  induction 1 as [r fieldDesc field_i rest
                 | r first first_i rest r1 r' fieldDesc field_i Hstep Hreach IH
                 | r first first_i rest fl' fields' r' fieldDesc field_i Hstep Hval Hreach IH];
    intros fl requestTag alias jsonAlias encode err Htag Herr Hempty.
  - rewrite assignRequest_struct. simpl.
    by rewrite (assignField_required r fieldDesc field_i _ _ _ _ err Htag Herr Hempty).
  - rewrite (assignRequest_next _ _ _ _ _ _ Hstep). eapply IH; eassumption.
  - rewrite (assignRequest_recursion_returns _ _ _ _ _ Hstep), Hval.
    eapply IH; eassumption.
Qed.

(** *** The end-to-end request *)

(** The text of the error of a required value that is not set. *)
Lemma requiredNotSet_text (requestTag fieldName : string) (err : error) :
  requiredNotSet requestTag fieldName = Some err ->
  exists what, Error_text err = "required " +:+ what +:+ " not found or not set: " +:+ fieldName.
Proof.
  unfold requiredNotSet.
  destruct (String.eqb requestTag "cookie!"); [intros [= <-]; by exists "cookie" |].
  destruct (String.eqb requestTag "header!"); [intros [= <-]; by exists "header" |].
  destruct (String.eqb requestTag "query!"); [intros [= <-]; by exists "header" |].
  destruct (String.eqb requestTag "path!"); [intros [= <-]; by exists "path variable" |].
  discriminate.
Qed.

(** C4, as amended: for a request that is not a [Requester], whose validation
    passes or is skipped, whose URL parses and whose body, if it is a
    [jsonBody], encodes, when the walk of the Field Assigner comes to a field
    whose placement is [cookie!], [header!], [query!] or [path!] and whose
    value converts to no string or to the empty one, [DoRequest] returns the
    error of the writer, wrapped with the name of the request, and hands
    nothing to the transport. *)
Theorem required_field_aborts {T : Type} (ops : ResponseType T) (baseUrl : string)
    (sr : HttpRequest) (responseObj : option T) (tlsConfig : list (option tls_Config))
    (w : World) (u : URL) (body : option string) (fl : Flags)
    (fields : list (StructField * Value)) (r' : option Request)
    (fieldDesc : StructField) (field_i : Value)
    (requestTag alias jsonAlias encode : string) (err : error) :
  clientValidation sr = None ->
  url_Parse (joinedStr baseUrl sr) = inl u ->
  as_Requester sr = None ->
  clientValue sr = VStruct fl fields ->
  requestBody sr = inl body ->
  reaches (http_NewRequest (Info_Method (Info sr)) (URL_String u) body).1 fields
    r' fieldDesc field_i ->
  readClientTag fieldDesc = (requestTag, alias, jsonAlias, encode) ->
  requiredNotSet requestTag (wireName fieldDesc alias jsonAlias) = Some err ->
  (forall urlEncode,
      nil_or_empty (convertBaseValueToString (fieldValue fieldDesc field_i) urlEncode)
      = true) ->
  GenerateClientRequest baseUrl (Some sr)
  = Returns (r', Some (ClientFieldAssignment (Info_Name (Info sr)) err)) /\
  DoRequest ops baseUrl (Some sr) responseObj tlsConfig w
  = Returns (w, responseObj, Some (ClientFieldAssignment (Info_Name (Info sr)) err)) /\
  exists what,
    Error_text (ClientFieldAssignment (Info_Name (Info sr)) err)
    = "client field assignment failed, for client " +:+ Info_Name (Info sr) +:+ ": "
      +:+ "required " +:+ what +:+ " not found or not set: "
      +:+ wireName fieldDesc alias jsonAlias.
Proof.
  intros Hvalid Hurl Hreq Hvalue Hbody Hreach Htag Herr Hempty.
  assert (GenerateClientRequest baseUrl (Some sr)
          = Returns (r', Some (ClientFieldAssignment (Info_Name (Info sr)) err))) as Hgen.
  { unfold GenerateClientRequest. rewrite Hvalid. cbv zeta. rewrite Hurl, Hreq, Hvalue.
    change (negb (bool_decide (Value_Kind (VStruct fl fields) = KStruct))) with false.
    cbv iota. rewrite Hbody.
    by rewrite (assignRequest_required _ _ _ _ _ Hreach fl _ _ _ _ err Htag Herr Hempty). }
  split; [exact Hgen |]. split; [unfold DoRequest; by rewrite Hgen |].
  destruct (requiredNotSet_text _ _ _ Herr) as [what Hwhat].
  exists what. cbn [Error_text]. by rewrite Hwhat.
Qed.

(** C7, as amended: when the transport answers, the body is read to its end,
    and the type of the nil [responseObj] has no [Capture] method and no
    [NewCode] method that fails on nil, a status other than 200 is returned as
    an Error Carrier with that status as its code and with a message that
    starts with the status text, and the status 200 as no error.  [fmt.Sprintf]
    is taken to copy a format without verbs to the front of its result. *)
Theorem nil_target_status {T : Type} (ops : ResponseType T) (req : Request)
    (tlsConfig : list (option tls_Config)) (w : World) (resp : Response) :
  let transport :=
    match tlsConfig with
    | cfg :: _ => Some cfg
    | [] => DefaultClient_Transport w
    end in
  let w' := {| DefaultClient_Transport := transport; sent := (sent w ++ [req])%list |} in
  client_Do transport req = inl resp ->
  read_error (Response_Body resp) = None ->
  as_CaptureReader ops = None ->
  (forall statusCoder, as_CodedResponse ops = Some statusCoder ->
                       on_nil statusCoder (StatusCode resp) = Returns tt) ->
  (forall format vars, strings_Contains format "%" = false ->
                       strings_HasPrefix (fmt_Sprintf format vars) format = true) ->
  strings_Contains (http_StatusText (StatusCode resp)) "%" = false ->
  (StatusCode resp <> 200 ->
   exists carrier,
     DoGeneratedRequest ops (Some req) None tlsConfig w
     = Returns (w', None, Some (ErrorCarrier carrier)) /\
     response.StatusCode (response.basic carrier) = StatusCode resp /\
     strings_HasPrefix (response.Error carrier) (http_StatusText (StatusCode resp)) = true /\
     strings_Contains (response.Error carrier) (http_StatusText (StatusCode resp)) = true) /\
  (StatusCode resp = 200 ->
   DoGeneratedRequest ops (Some req) None tlsConfig w = Returns (w', None, None)).
Proof.
  intros transport w' Hdo Hread Hcapture Hcoded Hfmt Htext.
  assert (DoGeneratedRequest ops (Some req) None tlsConfig w
          = if negb (StatusCode resp =? 200)
            then Returns (w', None,
                          Some (ErrorCarrier
                                  (response.NewError zero_ErrorResponse (StatusCode resp)
                                     (http_StatusText (StatusCode resp))
                                     [Some (any_of_string "body");
                                      Some (any_of_bytes (content (Response_Body resp)))])))
            else Returns (w', None, None)) as Eq.
  { unfold DoGeneratedRequest. fold transport. rewrite Hdo.
    assert (match as_CodedResponse ops with
            | Some statusCoder => call statusCoder (None : option T) (StatusCode resp)
            | None => Returns (None, tt)
            end = Returns (None, tt)) as ->.
    { destruct (as_CodedResponse ops) as [statusCoder |] eqn:E; [| reflexivity].
      unfold call. by rewrite (Hcoded statusCoder eq_refl). }
    rewrite Hcapture, Hread. reflexivity. }
  split.
  - intros Hstatus. rewrite Eq.
    assert ((StatusCode resp =? 200) = false) as -> by (by apply Z.eqb_neq).
    eexists. split; [reflexivity |]. split; [reflexivity |].
    assert (strings_HasPrefix
              (fmt_Sprintf (http_StatusText (StatusCode resp))
                 [Some (any_of_string "body");
                  Some (any_of_bytes (content (Response_Body resp)))])
              (http_StatusText (StatusCode resp)) = true) as Hprefix
      by (by apply Hfmt).
    split; [exact Hprefix | by apply HasPrefix_Contains].
  - intros Hstatus. rewrite Eq, Hstatus. reflexivity.
Qed.

End ClientFacts.

(** ** The examples *)
Module Examples.
Import Example.

(** *** The Field Assigner returns from the loop after a recursion *)

(** C1: the loop returns from the recursion into the embedded
    [UsingSkipClientValidation] even though it succeeds, so the required
    [Token] after it is never looked at: no error when it is empty, no header
    when it is set.  With the two fields in the other order the error is
    returned and the header written. *)
Theorem fields_after_recursion_unassigned :
  assignField (Some get_items) UsingSkipClientValidation.1 UsingSkipClientValidation.2 = Recurse /\
  assignRequest (Some get_items) (ListItems "") = Returns (Some get_items, None) /\
  assignRequest (Some get_items) (ListItems' "")
  = Returns (Some get_items, Some (RequiredHeaderNotSet "Token")) /\
  assignRequest (Some get_items) (ListItems "abc") = Returns (Some get_items, None) /\
  assignRequest (Some get_items) (ListItems' "abc")
  = Returns (Some {| Method := "GET"; Request_URL := items_url;
                     Request_Header := {["Token" := ["abc"]]}; Body := None |}, None).
Proof. repeat split; vm_compute; reflexivity. Qed.

(** *** A struct whose JSON encoding fails *)

(** C2: [json.Marshal] fails on a struct that holds a channel, and the struct
    converts to the empty string, not to the error object. *)
Theorem failed_encoding_converts_to_empty :
  json_Marshal Holder = ("", Some (External "json: unsupported type")) /\
  convertBaseValueToString Holder false = Some "" /\
  convertBaseValueToString Holder true = Some "" /\
  convertBaseValueToString Holder false <> Some jsonParseError.
Proof. repeat split; try (vm_compute; reflexivity). vm_compute. discriminate. Qed.

(** *** The serialization alias *)

(** C3 does not hold as stated: the alias resolved for the tag [-,] is [-],
    which then is the wire name, while the bare [-] resolves to no alias. *)
Lemma dash_comma_alias :
  (readClientTag Secret).1.2 <> "" /\
  (readClientTag Secret).1.2 = "-" /\
  wireName Secret (readClientTag Secret).1.1.2 (readClientTag Secret).1.2 = "-" /\
  (readClientTag Hidden).1.2 = "" /\
  wireName Hidden (readClientTag Hidden).1.1.2 (readClientTag Hidden).1.2 = "Hidden".
Proof. repeat split; try (vm_compute; reflexivity). vm_compute. discriminate. Qed.

Lemma serialization_alias_witness :
  fromSwaggestTag Label = ("", "", "", false) /\
  Tag_Lookup (Tag Label) "json" = Some "label,omitempty" /\
  let '(requestPart, alias, jsonAlias, encode) := readClientTag Label in
  (exists seg rest,
      "label,omitempty" = seg +:+ rest /\
      strings_Contains seg "," = false /\
      (rest = "" \/ strings_HasPrefix rest "," = true) /\
      jsonAlias = if String.eqb "label,omitempty" "-," then "-"
                  else if String.eqb seg "-" then "" else seg) /\
  ("label,omitempty" = "-" ->
   jsonAlias = "" /\
   wireName Label alias jsonAlias = if String.eqb alias "" then Name Label else alias) /\
  ("label,omitempty" = "-," ->
   jsonAlias = "-" /\
   wireName Label alias jsonAlias = if String.eqb alias "" then "-" else alias).
Proof.
  split; [reflexivity |]. split; [reflexivity |].
  apply (serialization_alias Label "label,omitempty" "" "" ""); reflexivity.
Defined.

(** *** Required fields *)

(** C4 does not hold as stated: a request that implements [Requester] is sent
    as it builds itself, and its required header, empty, is not looked at. *)
Lemma requester_skips_required_field :
  readClientTag (Token "").1 = ("header!", "", "", "") /\
  nil_or_empty (convertBaseValueToString (Token "").2 false) = true /\
  DoRequest plain "http://h/" (Some self_made) None [] quiet
  = Returns ({| DefaultClient_Transport := None; sent := [get_items] |}, None, None).
Proof. repeat split; vm_compute; reflexivity. Qed.

Lemma required_field_aborts_witness :
  GenerateClientRequest "http://h/" (Some traced)
  = Returns (Some {| Method := "GET"; Request_URL := items_url;
                     Request_Header := {["Trace" := ["t1"]]}; Body := None |},
             Some (ClientFieldAssignment "ListItems" (RequiredHeaderNotSet "Token"))) /\
  DoRequest plain "http://h/" (Some traced) None [] quiet
  = Returns (quiet, None,
             Some (ClientFieldAssignment "ListItems" (RequiredHeaderNotSet "Token"))) /\
  exists what,
    Error_text (ClientFieldAssignment "ListItems" (RequiredHeaderNotSet "Token"))
    = "client field assignment failed, for client " +:+ "ListItems" +:+ ": "
      +:+ "required " +:+ what +:+ " not found or not set: " +:+ "Token".
Proof.
  apply (required_field_aborts plain "http://h/" traced None [] quiet items_url None fl
           [Trace; Token ""]
           (Some {| Method := "GET"; Request_URL := items_url;
                    Request_Header := {["Trace" := ["t1"]]}; Body := None |})
           (Token "").1 (Token "").2 "header!" "" "" "").
  - reflexivity.
  - vm_compute. reflexivity.
  - reflexivity.
  - reflexivity.
  - reflexivity.
  - eapply reaches_next; [vm_compute; reflexivity | apply reaches_here].
  - reflexivity.
  - reflexivity.
  - intros urlEncode. destruct urlEncode; reflexivity.
Defined.

(** *** The path writer *)

Lemma writeRequestPath_spec_witness :
  writeRequestPath (Some get_item) "id" (VPtr fl VInvalid) true false
  = Returns (Some get_item, Some (RequiredPathNotSet "id")) /\
  (exists err, writeRequestPath (Some get_items) "id" (VInt fl Int_ 7) false false
               = Returns (Some get_items, Some err)) /\
  (exists req', writeRequestPath (Some get_item) "id" (VInt fl Int_ 7) true false
                = Returns (Some req', None) /\
                Path (Request_URL req') = "/v1/items/7").
Proof.
  split; [| split].
  - apply (writeRequestPath_spec get_item "id" (VPtr fl VInvalid) true false); reflexivity.
  - apply (writeRequestPath_spec get_items "id" (VInt fl Int_ 7) false false). reflexivity.
  - destruct (writeRequestPath_spec get_item "id" (VInt fl Int_ 7) true false)
      as (_ & _ & Hreplace).
    destruct Hreplace as (req' & Hwritten & Hpath & _); [reflexivity | reflexivity |].
    exists req'. split; [exact Hwritten |]. rewrite Hpath. reflexivity.
Defined.

(** *** Slices *)

(** C6 does not hold as stated: an element that is a slice is escaped once,
    as a whole, commas included, on top of the escaping of its own elements. *)
Lemma slice_of_slices_not_twice_escaped :
  convertSliceToStringValue letters true
  <> strings_Join
       ((fun s => url_QueryEscape (url_QueryEscape s))
        <$> omap (fun e => convertBaseValueToString e false) letters) "," /\
  convertSliceToStringValue letters true = "a%2Cb" /\
  strings_Join
    ((fun s => url_QueryEscape (url_QueryEscape s))
     <$> omap (fun e => convertBaseValueToString e false) letters) "," = "a%252Cb".
Proof. repeat split; try (vm_compute; reflexivity). vm_compute. discriminate. Qed.

Lemma slice_conversion_witness :
  Forall (fun e => slice_behind_pointers e = false) spaced /\
  convertSliceToStringValue spaced true
  = strings_Join
      ((fun s => url_QueryEscape (url_QueryEscape s))
       <$> omap (fun e => convertBaseValueToString e false) spaced) "," /\
  convertSliceToStringValue spaced true = "a%2Bb,c".
Proof.
  assert (Forall (fun e => slice_behind_pointers e = false) spaced) as Hall
    by (repeat constructor).
  split; [exact Hall |]. split; [| reflexivity].
  apply (slice_conversion fl spaced true). exact Hall.
Defined.

(** *** A nil response target *)

(** C7 does not hold as stated: the answer to [/broken] has the status 404,
    but its body cannot be read to the end, and what is returned is the error
    of the read, not an Error Carrier. *)
Lemma broken_body_is_no_carrier :
  client_Do None get_broken
  = inl {| StatusCode := 404;
           Response_Body := {| content := "no";
                               read_error := Some (External "unexpected EOF") |} |} /\
  DoGeneratedRequest plain (Some get_broken) None [] quiet
  = Returns ({| DefaultClient_Transport := None; sent := [get_broken] |}, None,
             Some (ParseBodyFailed "GET" "http://h/broken" (External "unexpected EOF"))).
Proof. split; vm_compute; reflexivity. Qed.

(** The [Sprintf] of the examples copies a format without verbs. *)
Lemma sprintf_verbatim (format : string) (vars : list (option dyn)) :
  strings_Contains format "%" = false ->
  strings_HasPrefix (sprintf format vars) format = true.
Proof.
  induction format as [| c format IH]; intros Hno.
  - unfold strings_HasPrefix. by destruct (sprintf "" vars).
  - cbn [strings_Contains] in Hno. apply orb_false_iff in Hno as [Hc Hrest].
    unfold strings_HasPrefix in Hc. cbn [String.prefix] in Hc.
    destruct (Ascii.ascii_dec "%" c) as [<- | Hne]; [by destruct format |].
    cbn [sprintf]. destruct (Ascii.eqb_spec c "%") as [-> | _]; [congruence |].
    unfold strings_HasPrefix. cbn [String.prefix].
    destruct (Ascii.ascii_dec c c); [| congruence]. by apply IH.
Defined.

Lemma nil_target_status_witness :
  (404 <> 200 ->
   exists carrier,
     DoGeneratedRequest plain (Some get_missing) None [] quiet
     = Returns ({| DefaultClient_Transport := None; sent := [get_missing] |}, None,
                Some (ErrorCarrier carrier)) /\
     response.StatusCode (response.basic carrier) = 404 /\
     strings_HasPrefix (response.Error carrier) "Not Found" = true /\
     strings_Contains (response.Error carrier) "Not Found" = true) /\
  (404 = 200 ->
   DoGeneratedRequest plain (Some get_missing) None [] quiet
   = Returns ({| DefaultClient_Transport := None; sent := [get_missing] |}, None, None)).
Proof.
  assert (forall statusCoder,
            as_CodedResponse plain = Some statusCoder ->
            on_nil statusCoder (StatusCode not_found) = Returns tt) as Hcoded
    by (intros statusCoder [=]).
  exact (nil_target_status plain get_missing [] quiet not_found
           eq_refl eq_refl eq_refl Hcoded sprintf_verbatim eq_refl).
Defined.

(** *** The response helpers *)

Lemma Failed_exactly_when_message_witness :
  fmt_Sprintf "" [] = "" /\
  response.StatusCode (response.basic (response.NewError zero_ErrorResponse 500 "" [])) = 500 /\
  response.Failed (response.NewError zero_ErrorResponse 500 "" []) = None.
Proof.
  split; [reflexivity |].
  apply (Failed_exactly_when_message zero_ErrorResponse 500 "" []). reflexivity.
Defined.

Lemma Log_pairs_GetAll_copy_witness :
  Nat.Odd (length three_values) /\
  exists k,
    last three_values = Some k /\
    response.deref_map (response.Log {| response.lvalues := None |} three_values ∅).2
      (response.lvalues (response.Log {| response.lvalues := None |} three_values ∅).1)
    !! fmt_Sprintf "%s" [k] = Some None.
Proof.
  assert (Nat.Odd (length three_values)) as Hodd by (exists 1%nat; reflexivity).
  split; [exact Hodd |].
  apply (@Log_pairs_GetAll_copy fmt {| response.lvalues := None |} ∅ three_values). exact Hodd.
Defined.

End Examples.

(** * Further properties *)

(** ** Package [response]: how [Log] and [GetAll] compose *)
Section LoggingFacts.
Context {fmt : Fmt}.
Import response.

(** What [Log] writes lies over what was there. *)
Lemma log_entries_union (values : list iface) :
  forall m : gmap string iface, log_entries m values = log_entries ∅ values ∪ m.
Proof.
  induction values as [| k | k v rest IH] using pairwise_ind; intros m; simpl.
  - by rewrite (left_id_L ∅ (∪)).
  - by rewrite <- insert_union_l, (left_id_L ∅ (∪)).
  - rewrite (IH (<[_ := v]> m)), (IH (<[_ := v]> ∅)).
    by rewrite <- (assoc_L (∪)), <- insert_union_l, (left_id_L ∅ (∪)).
Qed.

Lemma log_entries_app (first : list iface) :
  forall (m : gmap string iface) (second : list iface),
    Nat.Even (length first) ->
    log_entries m (first ++ second) = log_entries (log_entries m first) second.
Proof.
  induction first as [| k | k v rest IH] using pairwise_ind; intros m second Heven.
  - reflexivity.
  - destruct Heven as [n Hn]. simpl in Hn. lia.
  - simpl. apply IH. destruct Heven as [n Hn]. simpl in Hn. exists (n - 1)%nat. lia.
Qed.

(** Two calls of [Log] in a row are one call with the arguments of both,
    when the first call has an even number of them. *)
Theorem Log_twice_is_Log_app (l : ExpandedLogging) (h : maps) (first second : list iface) :
  Nat.Even (length first) ->
  Log (Log l first h).1 second (Log l first h).2 = Log l (first ++ second)%list h.
Proof.
  intros Heven. unfold Log, make_map.
  destruct (lvalues l) as [p |]; simpl.
  - rewrite lookup_insert_eq. simpl. rewrite insert_insert_eq.
    by rewrite (log_entries_app _ _ _ Heven).
  - rewrite !lookup_insert_eq. simpl. rewrite insert_insert_eq.
    by rewrite (log_entries_app _ _ _ Heven).
Qed.

(** [Log] removes no key, and touches no other map of the store. *)
Theorem Log_keeps_keys (l : ExpandedLogging) (h : maps) (values : list iface) :
  (forall s, is_Some (deref_map h (lvalues l) !! s) ->
             is_Some (deref_map (Log l values h).2 (lvalues (Log l values h).1) !! s)) /\
  (forall q, lvalues (Log l values h).1 <> Some q -> (Log l values h).2 !! q = h !! q).
Proof.
  split.
  - intros s Hs.
    destruct (Log_lvalues l values h) as (p & Hp & Hm & _ & _).
    rewrite Hp. simpl. rewrite Hm. simpl. rewrite log_entries_union.
    apply lookup_union_is_Some. by right.
  - intros q Hq. unfold Log, make_map in *.
    destruct (lvalues l) as [p |]; simpl in *.
    + rewrite lookup_insert_ne; [reflexivity | congruence].
    + rewrite !lookup_insert_ne; [reflexivity | congruence | congruence].
Qed.

Lemma log_entries_again (values : list iface) (m : gmap string iface) :
  log_entries (log_entries m values) values = log_entries m values.
Proof.
  rewrite (log_entries_union values (log_entries m values)).
  rewrite (log_entries_union values m).
  rewrite (assoc_L (∪)). f_equal. apply (idemp_L (∪)).
Qed.

(** Logging the same arguments a second time changes nothing. *)
Theorem Log_again_same_entries (l : ExpandedLogging) (h : maps) (values : list iface) :
  let l1 := (Log l values h).1 in
  let h1 := (Log l values h).2 in
  Log l1 values h1 = (l1, h1).
Proof.
  intros l1 h1. unfold l1, h1, Log, make_map.
  destruct (lvalues l) as [p |]; simpl.
  - rewrite lookup_insert_eq. simpl. rewrite insert_insert_eq.
    by rewrite log_entries_again.
  - rewrite !lookup_insert_eq. simpl. rewrite insert_insert_eq.
    by rewrite log_entries_again.
Qed.


End LoggingFacts.

(** ** The Value Converter and the pointer loop *)
Section ConverterFacts.
Context {floats : Floats} {runtime : Runtime} {fmt : Fmt}.

Lemma nil_converts_to_none (v : Value) (urlEncode : bool) :
  nil_behind_pointers v = true -> convertBaseValueToString v urlEncode = None.
Proof.
  induction v as [| | | | | | | | | fl elem IH |]; simpl; intros Hnil;
    try discriminate; auto.
Qed.

(** Only nil converts to no string: the conversion is absent exactly for the
    zero Value and for the chains of pointers that end in nil. *)
Theorem absent_exactly_for_nil (v : Value) (urlEncode : bool) :
  convertBaseValueToString v urlEncode = None <-> nil_behind_pointers v = true.
Proof.
  induction v as [| | | | fl k f | fl k c | | | fl fields | fl elem IH |]; simpl;
    try (split; [discriminate | discriminate]); try (split; reflexivity).
  - destruct k; split; discriminate.
  - destruct k; split; discriminate.
  - destruct (CanInterface_flag fl); [| split; discriminate].
    destruct (json_Marshal (VStruct fl fields)). split; discriminate.
  - exact IH.
Qed.

(** The pointer loop of [assignRequest] stops at a value that is not a
    pointer or at a nil pointer, running it again changes nothing, and the
    field converts after the loop as it does before it. *)
Theorem pointer_loop_keeps_conversion (fieldDesc : StructField) (v : Value)
    (urlEncode : bool) :
  convertBaseValueToString (fieldValue fieldDesc v) urlEncode
  = convertBaseValueToString v urlEncode /\
  traversePointers (traversePointers v) = traversePointers v /\
  (Value_Kind (traversePointers v) = KPointer ->
   Value_Elem (traversePointers v) = VInvalid).
Proof.
  assert (convertBaseValueToString (traversePointers v) urlEncode
          = convertBaseValueToString v urlEncode) as Hconv.
  { induction v as [| | | | | | | | | fl elem IH |]; try reflexivity.
    destruct elem; try reflexivity; exact IH. }
  split; [| split].
  - unfold fieldValue. by destruct (bool_decide (Type_Kind fieldDesc = KPointer)).
  - clear Hconv. induction v as [| | | | | | | | | fl elem IH |]; try reflexivity.
    destruct elem; try reflexivity; exact IH.
  - clear Hconv.
    induction v as [| | | | fl k f | fl k c | | | | fl elem IH | fl k]; simpl;
      try discriminate.
    + by destruct k.
    + by destruct k.
    + by destruct k.
    + by destruct k.
    + destruct elem; try reflexivity; try exact IH.
    + by destruct k.
Qed.

Lemma strings_convert_to_Join (fl : Flags) (strs : list string) :
  convertSliceToStringValue (VString fl <$> strs) false = strings_Join strs ",".
Proof.
  unfold convertSliceToStringValue. f_equal.
  induction strs as [| s strs IH]; [reflexivity |].
  change (VString fl <$> s :: strs) with (VString fl s :: (VString fl <$> strs)).
  cbn [accumulate]. change (convertBaseValueToString (VString fl s) false) with (Some s).
  cbv iota. f_equal. exact IH.
Qed.

Lemma split_scan_segment (e : string) :
  forall cur s,
    strings_Contains e "," = false ->
    split_scan "," O cur (e +:+ s) = split_scan "," O (cur +:+ e) s.
Proof.
  induction e as [| c e IH]; intros cur s Hno.
  - by rewrite append_empty.
  - cbn [strings_Contains] in Hno. apply orb_false_iff in Hno as [Hc He].
    unfold strings_HasPrefix in Hc. cbn [String.prefix] in Hc.
    change (String c e +:+ s) with (String c (e +:+ s)). cbn [split_scan].
    unfold strings_HasPrefix at 1. cbn [String.prefix].
    destruct (Ascii.ascii_dec "," c) as [<- | Hne]; [by destruct e |].
    rewrite (IH _ _ He). by rewrite append_assoc.
Qed.

Lemma split_scan_comma (cur s : string) :
  split_scan "," O cur (String "," s) = cur :: split_scan "," O "" s.
Proof.
  cbn [split_scan]. unfold strings_HasPrefix. cbn [String.prefix].
  destruct (Ascii.ascii_dec "," ","); [| congruence].
  by destruct s.
Qed.

Lemma Split_Join_comma (strs : list string) :
  strs <> [] ->
  Forall (fun s => strings_Contains s "," = false) strs ->
  strings_Split (strings_Join strs ",") "," = strs.
Proof.
  intros Hne Hall. unfold strings_Split.
  induction Hall as [| e rest He Hall IH]; [congruence |].
  destruct rest as [| e' rest].
  - simpl. rewrite <- (append_empty e) at 1.
    rewrite (split_scan_segment e "" "" He). reflexivity.
  - rewrite Join_cons by congruence.
    rewrite (split_scan_segment e "" _ He).
    change ("," +:+ strings_Join (e' :: rest) ",")
      with (String "," (strings_Join (e' :: rest) ",")).
    rewrite split_scan_comma. f_equal. apply IH. congruence.
Qed.

(** Without [urlEncode], a slice of strings that hold no comma is recovered
    by splitting its conversion at the commas; a comma inside an element is
    not told from the delimiter. *)
Theorem slice_of_strings_round_trip (fl : Flags) (strs : list string) (a b : string) :
  (strs <> [] ->
   Forall (fun s => strings_Contains s "," = false) strs ->
   strings_Split (convertSliceToStringValue (VString fl <$> strs) false) "," = strs) /\
  convertSliceToStringValue [VString fl (a +:+ "," +:+ b)] false
  = convertSliceToStringValue [VString fl a; VString fl b] false.
Proof.
  split.
  - intros Hne Hall. rewrite strings_convert_to_Join. by apply Split_Join_comma.
  - reflexivity.
Qed.

(** A slice always converts to a string, and to the empty one when none of
    its elements has a string: a slice of nil pointers, like an empty slice,
    counts as not set. *)
Theorem slice_of_absent_not_set (fl : Flags) (elems : list Value) (urlEncode : bool) :
  convertBaseValueToString (VSlice fl elems) urlEncode <> None /\
  (Forall (fun e => nil_behind_pointers e = true) elems ->
   convertBaseValueToString (VSlice fl elems) urlEncode = Some "" /\
   nil_or_empty (convertBaseValueToString (VSlice fl elems) urlEncode) = true).
Proof.
  split; [discriminate |]. intros Hall.
  assert (convertBaseValueToString (VSlice fl elems) urlEncode = Some "") as ->; [| done].
  simpl. f_equal.
  assert (accumulate (fun e => convertBaseValueToString e urlEncode) urlEncode elems = [])
    as ->; [| reflexivity].
  induction Hall as [| e elems He Hall IH]; [reflexivity |].
  simpl. by rewrite (nil_converts_to_none e urlEncode He).
Qed.

End ConverterFacts.

(** ** The writers and the Field Assigner *)
Section AssignerFacts.
Context {floats : Floats} {runtime : Runtime} {fmt : Fmt}.

(** Whichever of the four writers a placement tag selects: when it returns
    an error, the request is as it was. *)
Theorem writer_error_leaves_request (tagName : string)
    (operation : typicalClientRequestWriter) (r r' : option Request) (fieldName : string)
    (fieldValue : Value) (isRequired urlEncode : bool) (err : error) :
  returnClientOperationByTagValue tagName = Some operation ->
  operation r fieldName fieldValue isRequired urlEncode = Returns (r', Some err) ->
  r' = r.
Proof.
  unfold returnClientOperationByTagValue. intros Hop.
  repeat case_bool_decide; try discriminate; injection Hop as <-.
  - unfold writeRequestCookie.
    destruct (isRequired && nil_or_empty _); [congruence |].
    destruct r; simpl; congruence.
  - unfold writeRequestHeader.
    destruct (isRequired && nil_or_empty _); [congruence |].
    destruct r; simpl; congruence.
  - unfold writeRequestQueryParam.
    destruct (isRequired && nil_or_empty _); [congruence |].
    destruct r; simpl; congruence.
  - unfold writeRequestPath.
    destruct (isRequired && nil_or_empty _); [congruence |].
    destruct r as [req |]; simpl; [| congruence].
    destruct (negb (strings_Contains _ _)); congruence.
Qed.

(** Whichever of the four writers a placement tag selects, it writes a value
    that is nil behind its pointers as it writes the empty string: an
    optional field that is not set still gets its cookie, header or query
    parameter, with nothing in it, and empties its path variable. *)
Theorem absent_is_written_as_empty (tagName : string)
    (operation : typicalClientRequestWriter) (r : option Request) (fieldName : string)
    (v : Value) (fl : Flags) (isRequired urlEncode : bool) :
  returnClientOperationByTagValue tagName = Some operation ->
  nil_behind_pointers v = true ->
  operation r fieldName v isRequired urlEncode
  = operation r fieldName (VString fl "") isRequired false.
Proof.
  unfold returnClientOperationByTagValue. intros Hop Hnil.
  repeat case_bool_decide; try discriminate; injection Hop as <-.
  - unfold writeRequestCookie. by rewrite (nil_converts_to_none v urlEncode Hnil).
  - unfold writeRequestHeader. by rewrite (nil_converts_to_none v urlEncode Hnil).
  - unfold writeRequestQueryParam. by rewrite (nil_converts_to_none v false Hnil).
  - unfold writeRequestPath. by rewrite (nil_converts_to_none v urlEncode Hnil).
Qed.


(** The body of the loop for a field whose placement is [form] and whose
    value is encoded. *)
Lemma assignField_form (req : Request) (fieldDesc : StructField) (field_i : Value) :
  (readClientTag fieldDesc).1.1.1 = "form" ->
  Value_CanInterface (fieldValue fieldDesc field_i) = true ->
  (json_Marshal (fieldValue fieldDesc field_i)).2 = None ->
  exists req',
    assignField (Some req) fieldDesc field_i = Next (Some req') /\
    Body req' = Some (json_Marshal (fieldValue fieldDesc field_i)).1.
Proof.
  intros Htag Hcan Herr. unfold assignField.
  destruct (readClientTag fieldDesc) as [[[requestTag alias] jsonAlias] encode].
  simpl in Htag. subst requestTag. cbv beta iota zeta.
  change (String.eqb "form" "") with false. change (String.eqb "form" "form") with true.
  cbn [andb]. cbv iota. unfold writeRequestBody. cbn [deref_request]. rewrite Hcan.
  destruct (json_Marshal (fieldValue fieldDesc field_i)) as [jsBody e].
  simpl in Herr. subst e. eexists. split; reflexivity.
Qed.

(** There is one body: of the fields placed as [form], each of them encoded,
    the last one is the body of the request. *)
Theorem last_form_field_is_the_body (fl : Flags) (fields : list (StructField * Value)) :
  Forall (fun f => (readClientTag f.1).1.1.1 = "form" /\
                   Value_CanInterface (fieldValue f.1 f.2) = true /\
                   (json_Marshal (fieldValue f.1 f.2)).2 = None) fields ->
  forall req, exists req',
    assignRequest (Some req) (VStruct fl fields) = Returns (Some req', None) /\
    Body req' = match last fields with
                | Some f => Some (json_Marshal (fieldValue f.1 f.2)).1
                | None => Body req
                end.
Proof.
  intros Hall. induction Hall as [| [fieldDesc field_i] rest (Htag & Hcan & Herr) Hall IH];
    intros req.
  - exists req. split; reflexivity.
  - destruct (assignField_form req fieldDesc field_i Htag Hcan Herr) as (req1 & Hstep & Hbody).
    rewrite (assignRequest_next _ _ _ _ _ _ Hstep).
    destruct (IH req1) as (req' & Hrun & Hlast).
    exists req'. split; [exact Hrun |]. rewrite Hlast.
    destruct rest as [| g rest]; [exact Hbody |].
    rewrite last_cons_cons.
    destruct (last (g :: rest)) as [f |] eqn:Elast; [reflexivity |].
    by apply last_None in Elast.
Qed.

(** A field without placement that is not of struct type and is not an
    embedded field that can be set is passed over, whatever it holds: a
    struct all of whose fields are such leaves the request as it is. *)
Theorem unplaced_fields_are_skipped (r : option Request) (fl : Flags)
    (fields : list (StructField * Value)) :
  Forall (fun f => (readClientTag f.1).1.1.1 = "" /\
                   Type_Kind f.1 <> KStruct /\
                   Anonymous f.1 && Value_CanSet (fieldValue f.1 f.2) = false) fields ->
  assignRequest r (VStruct fl fields) = Returns (r, None).
Proof.
  intros Hall. induction Hall as [| [fieldDesc field_i] rest (Htag & Hkind & Hanon) Hall IH].
  - reflexivity.
  - assert (assignField r fieldDesc field_i = Next r) as Hstep.
    { unfold assignField. simpl in Htag, Hkind, Hanon.
      destruct (readClientTag fieldDesc) as [[[requestTag alias] jsonAlias] encode].
      simpl in Htag. subst requestTag. cbv beta iota zeta.
      rewrite (bool_decide_eq_false_2 _ Hkind), Hanon. reflexivity. }
    rewrite (assignRequest_next _ _ _ _ _ _ Hstep). exact IH.
Qed.

(** A placement that is neither empty, nor [form], nor one of the eight tags
    of the writers stops the assignment with an error that names it, the
    request as it was and the fields after it not looked at. *)
Theorem unknown_placement_stops (r : option Request) (fl : Flags) (fieldDesc : StructField)
    (field_i : Value) (rest : list (StructField * Value))
    (requestTag alias jsonAlias encode : string) :
  readClientTag fieldDesc = (requestTag, alias, jsonAlias, encode) ->
  requestTag <> "" ->
  requestTag <> "form" ->
  requestTag ∉ ["cookie"; "cookie!"; "header"; "header!"; "query"; "query!"; "path"; "path!"] ->
  assignRequest r (VStruct fl ((fieldDesc, field_i) :: rest))
  = Returns (r, Some (UnknownClientOperation requestTag)).
Proof.
  intros Htag Hempty Hform Hunknown. rewrite assignRequest_struct. cbn [assignFields].
  unfold assignField. rewrite Htag. cbv beta iota zeta.
  apply String.eqb_neq in Hempty, Hform. rewrite Hempty, Hform. cbn [andb negb]. cbv iota.
  assert (returnClientOperationByTagValue requestTag = None) as ->; [| reflexivity].
  unfold returnClientOperationByTagValue.
  rewrite !elem_of_cons in Hunknown.
  repeat (case_bool_decide as Hin;
          [exfalso; rewrite !elem_of_cons in Hin; tauto | clear Hin]).
  reflexivity.
Qed.

(** The loop recurses into an embedded field that is not a struct (a nil
    pointer, a named type that is not a struct) as into a struct, and the
    recursion fails: the assignment returns the error of a request that is no
    struct. *)
Theorem recursion_into_non_struct_fails (r : option Request) (fl : Flags)
    (fieldDesc : StructField) (field_i : Value) (rest : list (StructField * Value)) :
  assignField r fieldDesc field_i = Recurse ->
  Value_Kind (fieldValue fieldDesc field_i) <> KStruct ->
  Value_CanInterface (fieldValue fieldDesc field_i) = true ->
  assignRequest r (VStruct fl ((fieldDesc, field_i) :: rest))
  = Returns (r, Some (RequestObjectNotStruct
                        (GetFriendlyRequestName (fieldValue fieldDesc field_i)))).
Proof.
  intros Hstep Hkind Hcan. rewrite (assignRequest_recursion_returns _ _ _ _ _ Hstep).
  destruct (fieldValue fieldDesc field_i) eqn:E;
    try discriminate Hcan; try (exfalso; by apply Hkind);
    cbn [assignRequest]; by rewrite Hcan.
Qed.

End AssignerFacts.

(** ** The Tag Resolver *)
Section ResolverFacts.
Context {floats : Floats} {runtime : Runtime} {fmt : Fmt}.

(** When the structured-schema source does not apply, the serialization
    alias read from a [json] tag holds no comma: the options after the name
    never get into a wire name. *)
Theorem serialization_alias_has_no_comma (field : StructField)
    (tag sw_part sw_alias sw_json : string) :
  fromSwaggestTag field = (sw_part, sw_alias, sw_json, false) ->
  Tag_Lookup (Tag field) "json" = Some tag ->
  strings_Contains (readClientTag field).1.2 "," = false.
Proof.
  intros Hsw Hjson. unfold readClientTag. rewrite Hsw, Hjson. cbv beta iota zeta.
  cbn [fst snd].
  destruct (String.eqb tag "-,"); [reflexivity |].
  destruct (split_comma_first tag "") as (seg & rest & Hfirst & _ & Hno & _).
  unfold strings_Split. rewrite Hfirst.
  change (default "" (Some ("" +:+ seg))) with seg.
  destruct (String.eqb seg "-"); [reflexivity | exact Hno].
Qed.

End ResolverFacts.

(** ** Go strings: reversal and trimming *)







(** ** The Request Generator *)
Section GeneratorFacts.
Context {floats : Floats} {runtime : Runtime} {fmt : Fmt}.


(** A validation error is returned exactly when the request has a [Validate]
    method that fails and does not skip the validation; no request comes
    with it. *)
Theorem validation_error_exactly (baseUrl : string) (sr : HttpRequest)
    (r : option Request) (validationErr : error) :
  GenerateClientRequest baseUrl (Some sr) = Returns (r, Some (ClientValidation validationErr))
  <-> r = None /\ as_Validator sr = Some (Some validationErr) /\
      as_SkipClientValidation sr = false.
Proof.
  unfold GenerateClientRequest, clientValidation, deref_request. split.
  - intros Hgen. repeat case_match; simplify_eq; auto.
  - intros (-> & -> & ->). reflexivity.
Qed.

(** With a [Requester] the fields of the request are not read: two requests
    with the same route, validation and [Requester] generate the same,
    whatever their fields hold, and a request that is generated is the one
    the [Requester] made, with the method and the URL of the route. *)
Theorem Requester_replaces_the_fields (baseUrl : string) (sr sr' : HttpRequest)
    (made : option Request * option error) :
  as_Requester sr = Some made ->
  as_Requester sr' = Some made ->
  Info sr' = Info sr ->
  clientValidation sr' = clientValidation sr ->
  GenerateClientRequest baseUrl (Some sr') = GenerateClientRequest baseUrl (Some sr) /\
  (forall r err,
      GenerateClientRequest baseUrl (Some sr) = Returns (Some r, err) ->
      err = None /\
      Method r = Info_Method (Info sr) /\
      url_Parse (joinedStr baseUrl sr) = inl (Request_URL r) /\
      exists req, made = (Some req, None) /\
                  Request_Header r = Request_Header req /\ Body r = Body req).
Proof.
  intros Hreq Hreq' Hinfo Hvalid. split.
  - unfold GenerateClientRequest, joinedStr. by rewrite Hreq, Hreq', Hinfo, Hvalid.
  - intros r err. unfold GenerateClientRequest, deref_request. rewrite Hreq.
    intros Hgen. repeat case_match; simplify_eq; simpl; eauto 10.
Qed.

(** Apart from a failed field assignment, an error of the generator comes
    without a request. *)
Theorem generator_error_without_request (baseUrl : string)
    (serviceRequest : option HttpRequest) (r : option Request) (err : error) :
  GenerateClientRequest baseUrl serviceRequest = Returns (r, Some err) ->
  r = None \/
  exists sr err', serviceRequest = Some sr /\
                  err = ClientFieldAssignment (Info_Name (Info sr)) err'.
Proof.
  unfold GenerateClientRequest, deref_request. intros Hgen.
  repeat case_match; simplify_eq; eauto.
Qed.

(** Only a struct and a pointer to a struct are taken: anything else, a nil
    pointer and a pointer to a pointer included, is refused before a request
    is made. *)
Theorem only_structs_are_requests (baseUrl : string) (sr : HttpRequest) (u : URL) :
  clientValidation sr = None ->
  url_Parse (joinedStr baseUrl sr) = inl u ->
  as_Requester sr = None ->
  (forall fl fields, reflect_ValueOf sr <> VStruct fl fields) ->
  (forall fl fl' fields, reflect_ValueOf sr <> VPtr fl (VStruct fl' fields)) ->
  GenerateClientRequest baseUrl (Some sr) = Returns (None, Some NonStructClient).
Proof.
  intros Hvalid Hurl Hreq Hstruct Hptr. unfold GenerateClientRequest.
  rewrite Hvalid. cbv zeta. rewrite Hurl, Hreq.
  assert (Value_Kind (clientValue sr) <> KStruct) as Hkind.
  { unfold clientValue.
    destruct (reflect_ValueOf sr) as [| | | ? k | ? k ? | ? k ? | | | | ? elem | ? k] eqn:E;
      simpl; try discriminate; try (by destruct k).
    - by specialize (Hstruct fl fields).
    - destruct elem as [| | | ? k | ? k ? | ? k ? | | | | |? k];
        simpl; try discriminate; try (by destruct k).
      by specialize (Hptr fl fl0 fields). }
  by rewrite (bool_decide_eq_false_2 _ Hkind).
Qed.

End GeneratorFacts.

(** ** A request that could not be made *)
Section NilRequestFacts.
Context {floats : Floats} {runtime : Runtime} {fmt : Fmt}.

(** Induction on a Value with the fields of a struct and the target of a
    pointer as the smaller Values. *)
Lemma Value_fields_ind (P : Value -> Prop) :
  (forall v,
      (forall fl fields, v = VStruct fl fields -> Forall (fun f => P f.2) fields) ->
      (forall fl elem, v = VPtr fl elem -> P elem) ->
      P v) ->
  forall v, P v.
Proof.
  intros Hstep. fix IH 1. intros v.
  destruct v as [| | | | | | | | fl fields | fl elem |]; apply Hstep;
    intros fl' x Heq; try discriminate Heq.
  - injection Heq as _ <-.
    exact ((fix go (l : list (StructField * Value)) : Forall (fun f => P f.2) l :=
              match l with
              | [] => @List.Forall_nil _ (fun f => P f.2)
              | f :: l' =>
                  @List.Forall_cons _ (fun f => P f.2) f l'
                    (match f as f0 return P f0.2 with (_, y) => IH y end) (go l')
              end) fields).
  - injection Heq as _ <-. apply IH.
Qed.

Lemma writer_on_nil (tagName : string) (operation : typicalClientRequestWriter)
    (fieldName : string) (fieldValue : Value) (isRequired urlEncode : bool) :
  returnClientOperationByTagValue tagName = Some operation ->
  operation None fieldName fieldValue isRequired urlEncode = Panics \/
  exists err, operation None fieldName fieldValue isRequired urlEncode
              = Returns (None, Some err).
Proof.
  unfold returnClientOperationByTagValue. intros Hop.
  repeat case_bool_decide; try discriminate; injection Hop as <-.
  - unfold writeRequestCookie. destruct (isRequired && nil_or_empty _); eauto.
  - unfold writeRequestHeader. destruct (isRequired && nil_or_empty _); eauto.
  - unfold writeRequestQueryParam. destruct (isRequired && nil_or_empty _); eauto.
  - unfold writeRequestPath. destruct (isRequired && nil_or_empty _); eauto.
Qed.

Lemma assignField_on_nil (fieldDesc : StructField) (field_i : Value) :
  assignField None fieldDesc field_i = Recurse \/
  assignField None fieldDesc field_i = Next None \/
  assignField None fieldDesc field_i = Return_ Panics \/
  exists err, assignField None fieldDesc field_i = Return_ (Returns (None, Some err)).
Proof.
  unfold assignField.
  destruct (readClientTag fieldDesc) as [[[requestTag alias] jsonAlias] encode].
  cbv beta iota zeta.
  destruct (String.eqb requestTag "" && _); [by left |].
  destruct (String.eqb requestTag "form"); [right; right; by left |].
  destruct (negb (String.eqb requestTag "")); [| right; by left].
  destruct (returnClientOperationByTagValue requestTag) as [operation |] eqn:Hop;
    [| right; right; right; eauto].
  destruct (writer_on_nil requestTag operation (wireName fieldDesc alias jsonAlias)
              (fieldValue fieldDesc field_i) (strings_HasSuffix requestTag "!")
              (strconv_ParseBool encode) Hop) as [-> | [err ->]].
  - right; right; by left.
  - right; right; right. eauto.
Qed.

(** [assignRequest] on a nil request panics or returns with the request
    still nil. *)
Lemma assignRequest_on_nil (v : Value) :
  (assignRequest None v = Panics \/ exists err, assignRequest None v = Returns (None, err)) /\
  (assignRequest None (traversePointers v) = Panics \/
   exists err, assignRequest None (traversePointers v) = Returns (None, err)).
Proof.
  induction v as [v Hfields Helem] using Value_fields_ind.
  assert (assignRequest None v = Panics \/
          exists err, assignRequest None v = Returns (None, err)) as Hv.
  { destruct v as [| | | | | | | | fl fields | |];
      try (by left);
      try (cbn [assignRequest]; destruct (Value_CanInterface _); cbn [deref_request]; eauto).
    specialize (Hfields fl fields eq_refl). clear Helem.
    rewrite assignRequest_struct.
    induction Hfields as [| [fieldDesc field_i] rest [Hx Hx'] _ IH]; cbn [assignFields].
    - eauto.
    - destruct (assignField_on_nil fieldDesc field_i) as [-> | [-> | [-> | [err ->]]]];
        eauto.
      unfold fieldValue. by destruct (bool_decide _). }
  split; [exact Hv |].
  destruct v as [| | | | | | | | | fl elem |]; try exact Hv.
  destruct (Helem fl elem eq_refl) as [_ Helem'].
  destruct elem; try exact Helem'.
  cbn [traversePointers assignRequest]. destruct (Value_CanInterface _);
    cbn [deref_request]; eauto.
Qed.

(** When [http.NewRequest] makes no request for the method, its error is not
    looked at and the assignment goes on with a nil request: [DoRequest] then
    panics or returns an error, and when it returns nothing was handed to the
    transport and the target is as it was. *)
Theorem failed_NewRequest_never_sent {T : Type} (ops : ResponseType T) (baseUrl : string)
    (sr : HttpRequest) (responseObj : option T) (tlsConfig : list (option tls_Config))
    (w : World) :
  as_Requester sr = None ->
  (forall url body, (http_NewRequest (Info_Method (Info sr)) url body).1 = None) ->
  DoRequest ops baseUrl (Some sr) responseObj tlsConfig w = Panics \/
  exists err, DoRequest ops baseUrl (Some sr) responseObj tlsConfig w
              = Returns (w, responseObj, Some err).
Proof.
  intros Hreq Hnew. unfold DoRequest, GenerateClientRequest.
  destruct (clientValidation sr); [eauto |]. cbv zeta.
  destruct (url_Parse (joinedStr baseUrl sr)); [| eauto].
  rewrite Hreq.
  destruct (negb (bool_decide (Value_Kind (clientValue sr) = KStruct))); [eauto |].
  destruct (requestBody sr); [| eauto].
  rewrite Hnew.
  destruct (assignRequest_on_nil (clientValue sr)) as [[-> | [[err |] ->]] _]; eauto.
Qed.

End NilRequestFacts.

(** ** The Request Executor *)
Section ExecutorFacts.
Context {floats : Floats} {runtime : Runtime} {fmt : Fmt}.

Lemma DoGeneratedRequest_world {T : Type} (ops : ResponseType T) (r : option Request)
    (responseObj responseObj' : option T) (tlsConfig : list (option tls_Config))
    (w w' : World) (err : option error) :
  DoGeneratedRequest ops r responseObj tlsConfig w = Returns (w', responseObj', err) ->
  exists req,
    r = Some req /\
    w' = {| DefaultClient_Transport := match tlsConfig with
                                       | cfg :: _ => Some cfg
                                       | [] => DefaultClient_Transport w
                                       end;
            sent := (sent w ++ [req])%list |}.
Proof.
  unfold DoGeneratedRequest, call. intros Hdo.
  destruct r as [req |]; [| discriminate]. exists req. split; [reflexivity |].
  repeat case_match; simplify_eq; reflexivity.
Qed.

(** A call that returns has handed its request to the transport once, with
    or without an error, and has made the transport of its TLS configuration
    the transport of [http.DefaultClient]: a later call without a
    configuration goes through that transport still. *)
Theorem one_attempt_and_the_transport_stays {T T' : Type} (ops : ResponseType T)
    (ops' : ResponseType T') (req : Request) (r' : option Request)
    (responseObj responseObj1 : option T) (responseObj' : option T')
    (cfg : option tls_Config) (more tlsConfig : list (option tls_Config))
    (w w1 : World) (err : option error) :
  (DoGeneratedRequest ops (Some req) responseObj tlsConfig w = Returns (w1, responseObj1, err) ->
   sent w1 = (sent w ++ [req])%list) /\
  (DoGeneratedRequest ops (Some req) responseObj (cfg :: more) w
   = Returns (w1, responseObj1, err) ->
   DefaultClient_Transport w1 = Some cfg /\
   DoGeneratedRequest ops' r' responseObj' [] w1
   = DoGeneratedRequest ops' r' responseObj' [cfg] w1).
Proof.
  split.
  - intros Hdo. destruct (DoGeneratedRequest_world _ _ _ _ _ _ _ _ Hdo) as (? & [= <-] & ->).
    reflexivity.
  - intros Hdo. destruct (DoGeneratedRequest_world _ _ _ _ _ _ _ _ Hdo) as (? & [= <-] & ->).
    split; reflexivity.
Qed.

(** A [Capture] method decides the call alone: when it returns no error the
    call returns none, whatever the status and whether or not the body can
    be read, and the target is what [Capture] left. *)
Theorem capture_decides {T : Type} (ops : ResponseType T) (req : Request)
    (responseObj responseObj' : option T) (tlsConfig : list (option tls_Config))
    (w : World) (resp : Response) (captureReader : PtrMethod T ReadCloser (option error))
    (captured : option error) :
  client_Do match tlsConfig with
            | cfg :: _ => Some cfg
            | [] => DefaultClient_Transport w
            end req = inl resp ->
  as_CodedResponse ops = None ->
  as_CaptureReader ops = Some captureReader ->
  call captureReader responseObj (Response_Body resp) = Returns (responseObj', captured) ->
  exists w',
    DoGeneratedRequest ops (Some req) responseObj tlsConfig w
    = Returns (w', responseObj',
               match captured with
               | Some err =>
                   Some (CaptureFailed (Method req) (URL_String (Request_URL req)) err)
               | None => None
               end).
Proof.
  intros Hdo Hcoded Hcapture Hcall. unfold DoGeneratedRequest.
  rewrite Hdo, Hcoded, Hcapture, Hcall. destruct captured; eauto.
Qed.



(** [DoRequest] reaches the transport only with a request that was generated
    without an error, and then once; otherwise it returns the error of the
    generation and leaves the world and the target as they were. *)
Theorem DoRequest_sends_generated_once {T : Type} (ops : ResponseType T) (baseUrl : string)
    (clientRequest : option HttpRequest) (responseObj responseObj' : option T)
    (tlsConfig : list (option tls_Config)) (w w' : World) (err : option error) :
  DoRequest ops baseUrl clientRequest responseObj tlsConfig w
  = Returns (w', responseObj', err) ->
  (exists r generationErr,
      GenerateClientRequest baseUrl clientRequest = Returns (r, Some generationErr) /\
      err = Some generationErr /\ w' = w /\ responseObj' = responseObj) \/
  (exists req,
      GenerateClientRequest baseUrl clientRequest = Returns (Some req, None) /\
      sent w' = (sent w ++ [req])%list).
Proof.
  unfold DoRequest. intros Hdo.
  destruct (GenerateClientRequest baseUrl clientRequest) as [[r [generationErr |]] |];
    [| | discriminate].
  - left. exists r, generationErr. by simplify_eq.
  - right. destruct (DoGeneratedRequest_world _ _ _ _ _ _ _ _ Hdo) as (req & -> & ->).
    by exists req.
Qed.

End ExecutorFacts.

(** ** More examples *)
Module MoreExamples.
Import Example.

Lemma Log_twice_is_Log_app_witness :
  Nat.Even (length one_pair) /\
  response.Log (response.Log {| response.lvalues := None |} one_pair ∅).1 three_values
    (response.Log {| response.lvalues := None |} one_pair ∅).2
  = response.Log {| response.lvalues := None |} (one_pair ++ three_values)%list ∅.
Proof.
  assert (Nat.Even (length one_pair)) as Heven by (exists 1%nat; reflexivity).
  split; [exact Heven |].
  apply (@Log_twice_is_Log_app fmt {| response.lvalues := None |} ∅ one_pair three_values).
  exact Heven.
Defined.

Lemma Log_keeps_keys_witness :
  is_Some (response.deref_map
             (response.Log (response.Log {| response.lvalues := None |} one_pair ∅).1
                three_values (response.Log {| response.lvalues := None |} one_pair ∅).2).2
             (response.lvalues
                (response.Log (response.Log {| response.lvalues := None |} one_pair ∅).1
                   three_values
                   (response.Log {| response.lvalues := None |} one_pair ∅).2).1)
           !! "a").
Proof.
  apply (proj1 (@Log_keeps_keys fmt
                  (@response.Log fmt {| response.lvalues := None |} one_pair ∅).1
                  (@response.Log fmt {| response.lvalues := None |} one_pair ∅).2
                  three_values)).
  exists (Some (AInt 1)). vm_compute. reflexivity.
Defined.


Lemma absent_exactly_for_nil_witness :
  convertBaseValueToString (VPtr fl (VPtr fl VInvalid)) true = None.
Proof. apply absent_exactly_for_nil. reflexivity. Defined.

Lemma pointer_loop_keeps_conversion_witness :
  Value_Elem (traversePointers (VPtr fl (VPtr fl VInvalid))) = VInvalid.
Proof.
  apply (proj2 (proj2 (pointer_loop_keeps_conversion (field "P" KPointer [])
                         (VPtr fl (VPtr fl VInvalid)) false))).
  reflexivity.
Defined.

Lemma slice_of_strings_round_trip_witness :
  strings_Split (convertSliceToStringValue (VString fl <$> ["a"; "b c"]) false) ","
  = ["a"; "b c"].
Proof.
  apply (proj1 (slice_of_strings_round_trip fl ["a"; "b c"] "" "")).
  - discriminate.
  - repeat constructor.
Defined.

Lemma slice_of_absent_not_set_witness :
  convertBaseValueToString (VSlice fl [VPtr fl VInvalid; VPtr fl (VPtr fl VInvalid)]) true
  = Some "" /\
  nil_or_empty
    (convertBaseValueToString (VSlice fl [VPtr fl VInvalid; VPtr fl (VPtr fl VInvalid)]) true)
  = true.
Proof.
  apply (proj2 (slice_of_absent_not_set fl [VPtr fl VInvalid; VPtr fl (VPtr fl VInvalid)]
                  true)).
  repeat constructor.
Defined.

Lemma writer_error_leaves_request_witness :
  returnClientOperationByTagValue "header!" = Some writeRequestHeader /\
  writeRequestHeader (Some get_items) "Token" (VString fl "") true false
  = Returns (Some get_items, Some (RequiredHeaderNotSet "Token")) /\
  Some get_items = Some get_items.
Proof.
  split; [reflexivity |]. split; [reflexivity |].
  apply (writer_error_leaves_request "header!" writeRequestHeader (Some get_items)
           (Some get_items) "Token" (VString fl "") true false
           (RequiredHeaderNotSet "Token")); reflexivity.
Defined.

Lemma absent_is_written_as_empty_witness :
  writeRequestHeader (Some get_items) "Trace" (VPtr fl (VPtr fl VInvalid)) false true
  = writeRequestHeader (Some get_items) "Trace" (VString fl "") false false.
Proof.
  apply (absent_is_written_as_empty "header" writeRequestHeader (Some get_items) "Trace"
           (VPtr fl (VPtr fl VInvalid)) fl false true); reflexivity.
Defined.

Lemma last_form_field_is_the_body_witness :
  exists req',
    assignRequest (Some get_items) (VStruct fl [Note; Count]) = Returns (Some req', None) /\
    Body req' = Some "1".
Proof.
  assert (Forall (fun f => (readClientTag f.1).1.1.1 = "form" /\
                           Value_CanInterface (fieldValue f.1 f.2) = true /\
                           (json_Marshal (fieldValue f.1 f.2)).2 = None) [Note; Count])
    as Hall by (repeat constructor).
  destruct (last_form_field_is_the_body fl [Note; Count] Hall get_items)
    as (req' & Hrun & Hbody).
  exists req'. split; [exact Hrun | exact Hbody].
Defined.

Lemma unplaced_fields_are_skipped_witness :
  nil_or_empty (convertBaseValueToString (Token "").2 false) = true /\
  assignRequest (Some get_items) (VStruct fl [Internal; Inner])
  = Returns (Some get_items, None).
Proof.
  split; [reflexivity |].
  apply (unplaced_fields_are_skipped (Some get_items) fl [Internal; Inner]).
  repeat (apply List.Forall_cons; [split; [reflexivity | split; [discriminate | reflexivity]] |]).
  apply List.Forall_nil.
Defined.

Lemma unknown_placement_stops_witness :
  assignRequest (Some get_items) (VStruct fl [Blob; Token ""])
  = Returns (Some get_items, Some (UnknownClientOperation "form!")).
Proof.
  apply (unknown_placement_stops (Some get_items) fl Blob.1 Blob.2 [Token ""]
           "form!" "" "" "").
  - reflexivity.
  - discriminate.
  - discriminate.
  - rewrite !elem_of_cons, elem_of_nil. intros Hin.
    repeat (destruct Hin as [Hin | Hin]; [discriminate Hin |]). exact Hin.
Defined.

Lemma recursion_into_non_struct_fails_witness :
  assignRequest (Some get_items) (VStruct fl [Base; Token "abc"])
  = Returns (Some get_items, Some (RequestObjectNotStruct "ptr")).
Proof.
  assert (Value_Kind (fieldValue Base.1 Base.2) <> KStruct) as Hkind by discriminate.
  exact (recursion_into_non_struct_fails (Some get_items) fl Base.1 Base.2 [Token "abc"]
           eq_refl Hkind eq_refl).
Defined.

Lemma serialization_alias_has_no_comma_witness :
  strings_Contains (readClientTag Label).1.2 "," = false.
Proof.
  apply (serialization_alias_has_no_comma Label "label,omitempty" "" "" ""); reflexivity.
Defined.


Lemma validation_error_exactly_witness :
  GenerateClientRequest "http://h/" (Some invalid)
  = Returns (None, Some (ClientValidation (External "no token"))).
Proof. apply validation_error_exactly. repeat split. Defined.

Lemma Requester_replaces_the_fields_witness :
  GenerateClientRequest "http://h/"
    (Some {| Info := route "/v1/items"; as_Validator := None;
             as_SkipClientValidation := false;
             as_Requester := Some (Some get_items, None); as_jsonBody := true;
             reflect_ValueOf := VPtr fl VInvalid |})
  = GenerateClientRequest "http://h/" (Some self_made).
Proof.
  apply (proj1 (Requester_replaces_the_fields "http://h/" self_made
                  {| Info := route "/v1/items"; as_Validator := None;
                     as_SkipClientValidation := false;
                     as_Requester := Some (Some get_items, None); as_jsonBody := true;
                     reflect_ValueOf := VPtr fl VInvalid |}
                  (Some get_items, None) eq_refl eq_refl eq_refl eq_refl)).
Defined.

Lemma generator_error_without_request_witness :
  Some {| Method := "GET"; Request_URL := items_url;
          Request_Header := {["Trace" := ["t1"]]}; Body := None |} = None \/
  exists sr err',
    Some traced = Some sr /\
    ClientFieldAssignment "ListItems" (RequiredHeaderNotSet "Token")
    = ClientFieldAssignment (Info_Name (Info sr)) err'.
Proof.
  apply (generator_error_without_request "http://h/" (Some traced)).
  vm_compute. reflexivity.
Defined.

Lemma only_structs_are_requests_witness :
  GenerateClientRequest "http://h/" (Some nil_request)
  = Returns (None, Some NonStructClient).
Proof.
  apply (only_structs_are_requests "http://h/" nil_request items_url).
  - reflexivity.
  - vm_compute. reflexivity.
  - reflexivity.
  - intros fl0 fields. discriminate.
  - intros fl0 fl1 fields. discriminate.
Defined.

Lemma failed_NewRequest_never_sent_witness :
  DoRequest plain "http://h/" (Some (bare "BAD METHOD" "/v1/items")) None [] quiet = Panics \/
  exists err,
    DoRequest plain "http://h/" (Some (bare "BAD METHOD" "/v1/items")) None [] quiet
    = Returns (quiet, None, Some err).
Proof.
  apply (failed_NewRequest_never_sent plain "http://h/" (bare "BAD METHOD" "/v1/items")
           None [] quiet).
  - reflexivity.
  - intros url body. reflexivity.
Defined.

Lemma one_attempt_and_the_transport_stays_witness :
  DefaultClient_Transport
    {| DefaultClient_Transport := Some (Some (TLSConfig 1)); sent := [get_items] |}
  = Some (Some (TLSConfig 1)) /\
  DoGeneratedRequest plain (Some get_missing) None []
    {| DefaultClient_Transport := Some (Some (TLSConfig 1)); sent := [get_items] |}
  = DoGeneratedRequest plain (Some get_missing) None [Some (TLSConfig 1)]
      {| DefaultClient_Transport := Some (Some (TLSConfig 1)); sent := [get_items] |}.
Proof.
  apply (proj2 (one_attempt_and_the_transport_stays plain plain get_items (Some get_missing)
                  None None None (Some (TLSConfig 1)) [] [] quiet
                  {| DefaultClient_Transport := Some (Some (TLSConfig 1));
                     sent := [get_items] |} None)).
  vm_compute. reflexivity.
Defined.

Lemma capture_decides_witness :
  exists w',
    DoGeneratedRequest capturing (Some get_missing) None [] quiet
    = Returns (w', None, None).
Proof.
  exact (capture_decides capturing get_missing None None [] quiet not_found taking None
           eq_refl eq_refl eq_refl eq_refl).
Defined.



Lemma DoRequest_sends_generated_once_witness :
  (exists r generationErr,
      GenerateClientRequest "http://h/" (Some self_made) = Returns (r, Some generationErr) /\
      (None : option error) = Some generationErr /\
      {| DefaultClient_Transport := None; sent := [get_items] |} = quiet /\
      (None : option unit) = None) \/
  (exists req,
      GenerateClientRequest "http://h/" (Some self_made) = Returns (Some req, None) /\
      sent {| DefaultClient_Transport := None; sent := [get_items] |}
      = (sent quiet ++ [req])%list).
Proof.
  apply (DoRequest_sends_generated_once plain "http://h/" (Some self_made) None None []
           quiet {| DefaultClient_Transport := None; sent := [get_items] |} None).
  vm_compute. reflexivity.
Defined.

End MoreExamples.
